(** * CSE course chatbot: a shallow embedding of the query-routing chain

    The development follows the Python sources file by file:
    [models.py] (the [Course] record), [strategies.py] (retrieval
    strategies), [providers.py] (answer generation adapters),
    [handlers.py] (the chain of responsibility) and [chatbot.py] (the
    controller with its hot-swap operations, the catalog loader and the
    interactive loop).

    A Python [str] is modelled as the list of its code points.  The
    character classes the sources consult ([\d] and [\w] of [re], the white
    space of [str.strip] and [str.split]) and [str.lower] belong to
    Python's Unicode database, which is not part of the repository: the
    model takes them as parameters, together with the few facts about them
    that the proofs use.

    Calls into the external packages (the content store, the generation
    service, the file system, the JSON decoder) return a value or raise;
    the constructors of their classes are taken to succeed.  Objects that
    the controller and the handlers share are kept in a store and named by
    address, so that the two references to the active strategy (and to the
    active provider) can be compared. *)

From Stdlib Require Import ZArith NArith Ascii String Lia.
From stdpp Require Import base option list strings.

Local Open Scope stdpp_scope.

(** ** Python strings *)

Abbreviation text := (list N).

(** The literals of the sources are ASCII; a literal of this file
    stands for the text of its characters. *)
Fixpoint txt (s : string) : text :=
  match s with
  | EmptyString => []
  | String c r => N_of_ascii c :: txt r
  end.
Coercion txt : string >-> list.

(** Python's Unicode database, as far as the sources consult it. *)
Class Unicode := {
  (** [\d] of [re] on a [str] pattern: the decimal digits of every script *)
  is_decimal : N → bool;
  (** the digit's value, as [int] reads it *)
  decimal_value : N → Z;
  (** [\w] of [re] on a [str] pattern: alphanumerics and the underscore *)
  is_word : N → bool;
  (** the white space of [str.strip()] and [str.split()] *)
  is_space : N → bool;
  (** [s.lower()] *)
  lower : text → text;
  ascii_digit :
    ∀ c, (48 ≤ c ≤ 57)%N → is_decimal c = true ∧ decimal_value c = (Z.of_N c - 48)%Z;
  decimal_value_bounds :
    ∀ c, is_decimal c = true → (0 ≤ decimal_value c ≤ 9)%Z;
  decimal_is_word : ∀ c, is_decimal c = true → is_word c = true;
  space_is_space : is_space 32 = true;
  lower_empty : lower [] = [];
  lower_adds_no_space :
    ∀ s, forallb (λ c, negb (is_space c)) s = true →
         forallb (λ c, negb (is_space c)) (lower s) = true
}.

Module PyStr.
Section Operations.
Context `{Unicode}.

(** [a == b] *)
Definition eqb (a b : text) : bool := bool_decide (a = b).

Fixpoint lstrip (s : text) : text :=
  match s with
  | [] => []
  | c :: r => if is_space c then lstrip r else s
  end.

Fixpoint rstrip (s : text) : text :=
  match s with
  | [] => []
  | c :: r =>
      match rstrip r with
      | [] => if is_space c then [] else [c]
      | r' => c :: r'
      end
  end.

(** [s.strip()] *)
Definition strip (s : text) : text := rstrip (lstrip s).

(** [s.startswith(p)] *)
Fixpoint startswith (p s : text) : bool :=
  match p, s with
  | [], _ => true
  | a :: p', b :: s' => if N.eqb a b then startswith p' s' else false
  | _ :: _, [] => false
  end.

(** [needle in hay] *)
Fixpoint contains (needle hay : text) : bool :=
  match hay with
  | [] => startswith needle []
  | _ :: r => startswith needle hay || contains needle r
  end.

(** [sep.join(parts)] *)
Fixpoint join (sep : text) (parts : list text) : text :=
  match parts with
  | [] => []
  | [p] => p
  | p :: rest => p ++ sep ++ join sep rest
  end.

(** [bool(s)]: a string is truthy when it is not empty. *)
Definition truthy (s : text) : bool :=
  match s with [] => false | _ :: _ => true end.

End Operations.
End PyStr.

(** ** models.py *)

Record Course := mkCourse {
  id : text;
  title : text;
  description : text
}.

(** ** Effects: exceptions, observable events, and the monad threading them *)

(** The exceptions the sources can meet.  [Unmodelled] marks a run that
    leaves the data model (a catalog field that is not text, although
    [models.py] declares it [str]); no result below rests on it. *)
Inductive exn :=
| FileNotFoundError
| OSError (what : text)
| JSONDecodeError
| KeyError (key : text)
| TypeError
| AttributeError
| RecursionError
| ExternalError (what : text)
| Unmodelled (what : text).

Inductive outcome (A : Type) :=
| Return (a : A)
| Raise (e : exn).
Arguments Return {A} a.
Arguments Raise {A} e.

Inductive handler_class := CourseIdHandler_cls | CourseTitleHandler_cls | SemanticHandler_cls.

(** What a run does besides returning: lines printed, stages entered and
    calls made to the external collaborators, in order. *)
Inductive event :=
| EvPrint (line : text)
| EvProcess (stage : handler_class)
| EvFindRelevantChunks (query : text) (k : Z)
| EvGenerate (question context_text : text)
| EvStore (n_chunks : nat).

Definition M (A : Type) : Type := list event * outcome A.

Definition ret {A} (a : A) : M A := ([], Return a).
Definition raise {A} (e : exn) : M A := ([], Raise e).
Definition emit (ev : event) : M unit := ([ev], Return tt).
Definition print (line : text) : M unit := emit (EvPrint line).

Definition bind {A B} (m : M A) (k : A -> M B) : M B :=
  match m with
  | (evs, Return a) => let (evs', r) := k a in (evs ++ evs', r)
  | (evs, Raise e) => (evs, Raise e)
  end.

Notation "'let!' x ':=' c1 'in' c2" := (bind c1 (fun x => c2))
  (at level 10, x name, c1 at level 200, c2 at level 200).
Notation "'run!' c1 'in' c2" := (bind c1 (fun _ => c2))
  (at level 10, c1 at level 200, c2 at level 200).

(** Lift the result of an external call, logging the call. *)
Definition call {A} (ev : event) (r : outcome A) : M A := ([ev], r).

(** ** External collaborators

    The content store, its chunks, the local generation service, the file
    system, the JSON decoder and the Unicode database are not part of the
    repository; the model is parametric in them. *)

(** Member values of a decoded JSON object, and decoded documents. *)
Inductive json_value := JString (s : text) | JNonString.
Inductive json := JObject (members : list (text * json_value)) | JOther.

Class Collaborators := {
  #[global] unicode :: Unicode;
  ContentStore : Type;
  Chunk : Type;
  (** [Chunk(document_id, chunk_id, total_chunks, chunk_text, properties)] *)
  mk_chunk : text -> text -> Z -> text -> list (text * text) -> Chunk;
  chunk_text : Chunk -> text;
  (** [repr(chunk)] *)
  chunk_repr : Chunk -> text;
  (** [InternalContentStore(embedder=...)] *)
  new_store : ContentStore;
  (** [store.store(chunks)] *)
  store_chunks : ContentStore -> list Chunk -> outcome ContentStore;
  (** [store.find_relevant_chunks(query, k)] *)
  find_relevant_chunks : ContentStore -> text -> Z -> outcome (list Chunk);
  (** [bool(store)] *)
  store_truthy : ContentStore -> bool;
  (** [OllamaAnswerGenerator(access, model).generate_answer(question, text)] *)
  ollama_generate : text -> text -> Z -> text -> text -> outcome text;
  (** [open(path, 'r')] followed by iteration over the lines *)
  open_lines : text -> outcome (list text);
  (** [json.loads] on a non-empty text *)
  json_decode : text -> outcome json
}.

(** ** strategies.py *)

Inductive RetrievalStrategy :=
| TopNStrategy (n : Z)
| WindowStrategy (window_size : Z)
| DocumentStrategy
| HierarchicalStrategy.

Section Strategies.
Context `{Collaborators}.

Definition lookup_chunks (cs : ContentStore) (query : text) (k : Z)
  : M (list Chunk) :=
  call (EvFindRelevantChunks query k) (find_relevant_chunks cs query k).

Definition retrieve (self : RetrievalStrategy) (query : text)
    (content_store : option ContentStore) : M (list Chunk) :=
  match self with
  | TopNStrategy n =>
      match content_store with
      | None => ret []
      | Some cs => lookup_chunks cs query n
      end
  | WindowStrategy _ =>
      match content_store with
      | None => ret []
      | Some cs => lookup_chunks cs query 3
      end
  | DocumentStrategy =>
      match content_store with
      | None => ret []
      | Some cs => lookup_chunks cs query 5
      end
  | HierarchicalStrategy =>
      match content_store with
      | None => ret []
      | Some cs => lookup_chunks cs query 3
      end
  end.
End Strategies.

(** ** providers.py *)

Inductive LLMProvider :=
| OllamaProvider (model host : text) (port : Z)
| OpenAIProvider
| GeminiProvider.

Section Providers.
Context `{Collaborators}.

(** A context value as [generate_answer] observes it: a list of chunks,
    or any other object, given by its truth value and its [str]. *)
Inductive context :=
| CtxList (chunks : list Chunk)
| CtxOther (truth : bool) (str_of : text).

(** [bool(context)] *)
Definition context_truthy (c : context) : bool :=
  match c with
  | CtxList [] => false
  | CtxList (_ :: _) => true
  | CtxOther b _ => b
  end.

(** [str(context)]; a list prints the [repr] of its items. *)
Definition context_str (c : context) : text :=
  match c with
  | CtxList chunks => "[" ++ PyStr.join ", " (map chunk_repr chunks) ++ "]"
  | CtxOther _ s => s
  end.

(** [str(context)[:100] if context else "No context"] *)
Definition context_preview (c : context) : text :=
  if context_truthy c then take 100 (context_str c) else "No context".

Definition OpenAIProvider_generate_answer (question : text) (c : context) : text :=
  "[OpenAI] Answer for '" ++ question ++ "' based on: "
    ++ context_preview c ++ "...".

Definition GeminiProvider_generate_answer (question : text) (c : context) : text :=
  "[Gemini] Answer for '" ++ question ++ "' based on: "
    ++ context_preview c ++ "...".

Definition newline : text := [10%N].

Definition generate_answer (self : LLMProvider) (question : text) (c : context)
  : M text :=
  match self with
  | OllamaProvider model host port =>
      let context_text :=
        match c with
        | CtxList chunks => PyStr.join newline (map chunk_text chunks)
        | CtxOther _ s => s
        end in
      let! answer := call (EvGenerate question context_text)
                       (ollama_generate model host port question context_text) in
      ret ("[Ollama] " ++ answer)
  | OpenAIProvider => ret (OpenAIProvider_generate_answer question c)
  | GeminiProvider => ret (GeminiProvider_generate_answer question c)
  end.
End Providers.

(** ** handlers.py *)

(** Objects live in a store and are named by their address, so that two
    references to one policy object can be told from two equal objects. *)
Abbreviation loc := nat.

(** A handler object: its class, [_successor], [_courses] and, for the
    semantic handler, the [strategy] and [provider] attributes. *)
Inductive QueryHandler :=
| CourseIdHandler (_successor : option loc) (_courses : list Course)
| CourseTitleHandler (_successor : option loc) (_courses : list Course)
| SemanticHandler (_successor : option loc) (_courses : list Course)
    (strategy provider : option loc).

Inductive object :=
| ObjStrategy (s : RetrievalStrategy)
| ObjProvider (p : LLMProvider)
| ObjHandler (h : QueryHandler).

Abbreviation heap := (list object).

Definition alloc (σ : heap) (o : object) : loc * heap := (length σ, σ ++ [o]).

Definition get_handler (σ : heap) (l : loc) : M QueryHandler :=
  match σ !! l with
  | Some (ObjHandler h) => ret h
  | _ => raise AttributeError
  end.

Definition get_strategy (σ : heap) (l : loc) : M RetrievalStrategy :=
  match σ !! l with
  | Some (ObjStrategy s) => ret s
  | _ => raise AttributeError
  end.

Definition get_provider (σ : heap) (l : loc) : M LLMProvider :=
  match σ !! l with
  | Some (ObjProvider p) => ret p
  | _ => raise AttributeError
  end.

Definition successor_of (h : QueryHandler) : option loc :=
  match h with
  | CourseIdHandler s _ | CourseTitleHandler s _ | SemanticHandler s _ _ _ => s
  end.

Definition class_of (h : QueryHandler) : handler_class :=
  match h with
  | CourseIdHandler _ _ => CourseIdHandler_cls
  | CourseTitleHandler _ _ => CourseTitleHandler_cls
  | SemanticHandler _ _ _ _ => SemanticHandler_cls
  end.

(** The message [handle] returns when the chain is exhausted. *)
Definition fallback_message : text :=
  "Sorry, I couldn't find an answer to your question.".

Definition id_answer (course : Course) : text :=
  "Course " ++ id course ++ ": " ++ title course ++ ". "
    ++ "Description: " ++ description course.

Definition title_answer (course : Course) : text :=
  "Found course by title: " ++ title course ++ ". "
    ++ "ID: " ++ id course ++ ". Description: " ++ description course.

Section Patterns.
Context `{Unicode}.

(** *** [re.search(r'\b([1-4]\d{3})\b', query)] *)

(** [[1-4]] *)
Definition is_1_to_4 (c : N) : bool := ((49 <=? c) && (c <=? 52))%N.

Definition is_word_at (c : option N) : bool :=
  match c with
  | Some x => is_word x
  | None => false
  end.

(** [\b] between two neighbouring positions of the text, [None] standing
    for either end of it: one side is a word character, the other is
    not. *)
Definition boundary (before after : option N) : bool :=
  xorb (is_word_at before) (is_word_at after).

(** The pattern matches at the head of [s], [prev] being the character
    before it. *)
Definition id_pattern_here (prev : option N) (s : text) : bool :=
  match s with
  | c1 :: c2 :: c3 :: c4 :: rest =>
      boundary prev (Some c1)
      && is_1_to_4 c1 && is_decimal c2 && is_decimal c3 && is_decimal c4
      && boundary (Some c4) (head rest)
  | _ => false
  end.

(** Scan from the left; the result is [match.group(1)] of the leftmost
    match. *)
Fixpoint search_id_from (prev : option N) (s : text) : option text :=
  match s with
  | [] => None
  | c :: r =>
      if id_pattern_here prev s
      then Some (take 4 s)
      else search_id_from (Some c) r
  end.

Definition search_id (query : text) : option text := search_id_from None query.

(** The loop [for course in self._courses: if course.id == course_id]
    of [CourseIdHandler._process]. *)
Fixpoint find_by_id (course_id : text) (courses : list Course) : option Course :=
  match courses with
  | [] => None
  | course :: rest =>
      if PyStr.eqb (id course) course_id then Some course
      else find_by_id course_id rest
  end.

Definition CourseIdHandler_process (courses : list Course) (query : text)
  : option text :=
  match search_id query with
  | Some course_id =>
      match find_by_id course_id courses with
      | Some course => Some (id_answer course)
      | None => None
      end
  | None => None
  end.

(** The loop of [CourseTitleHandler._process]. *)
Fixpoint find_by_title (query_lower : text) (courses : list Course) : option Course :=
  match courses with
  | [] => None
  | course :: rest =>
      if PyStr.contains (lower (title course)) query_lower then Some course
      else find_by_title query_lower rest
  end.

Definition CourseTitleHandler_process (courses : list Course) (query : text)
  : option text :=
  let query_lower := lower query in
  match find_by_title query_lower courses with
  | Some course => Some (title_answer course)
  | None => None
  end.
End Patterns.

Section Handlers.
Context `{Collaborators}.

(** [bool(content_store)] for an optional store *)
Definition content_store_truthy (content_store : option ContentStore) : bool :=
  match content_store with
  | None => false
  | Some cs => store_truthy cs
  end.

Definition SemanticHandler_process (σ : heap) (strategy provider : option loc)
    (query : text) (content_store : option ContentStore) : M (option text) :=
  match strategy, provider with
  | Some sl, Some pl =>
      if content_store_truthy content_store then
        let! s := get_strategy σ sl in
        let! p := get_provider σ pl in
        let! context := retrieve s query content_store in
        let! answer := generate_answer p query (CtxList context) in
        ret (Some answer)
      else ret None
  | _, _ => ret None
  end.

(** [self._process(query, content_store)], dispatched on the class. *)
Definition _process (σ : heap) (self : QueryHandler) (query : text)
    (content_store : option ContentStore) : M (option text) :=
  run! emit (EvProcess (class_of self)) in
  match self with
  | CourseIdHandler _ courses => ret (CourseIdHandler_process courses query)
  | CourseTitleHandler _ courses => ret (CourseTitleHandler_process courses query)
  | SemanticHandler _ _ strategy provider =>
      SemanticHandler_process σ strategy provider query content_store
  end.

(** [QueryHandler.handle].  [depth] bounds the nesting of calls, as
    Python's recursion limit does.  [if result:] holds for a string that
    is not empty; [None] and the empty string pass the query on. *)
Fixpoint handle (depth : nat) (σ : heap) (self : loc) (query : text)
    (content_store : option ContentStore) : M text :=
  match depth with
  | O => raise RecursionError
  | S depth' =>
      let! h := get_handler σ self in
      let! result := _process σ h query content_store in
      let pass_on :=
        match successor_of h with
        | Some next => handle depth' σ next query content_store
        | None => ret fallback_message
        end in
      match result with
      | Some r => if PyStr.truthy r then ret r else pass_on
      | None => pass_on
      end
  end.
End Handlers.
(** ** chatbot.py *)

Section Chatbot.
Context `{Collaborators}.

(** The controller object, together with the store of the objects it
    refers to.  [strategy], [provider] and the three handler attributes
    are references into [objects]. *)
Record CSEChatbot := mkChatbot {
  objects : heap;
  _courses : list Course;
  _store : ContentStore;
  strategy : loc;
  provider : loc;
  _semantic_handler : loc;
  _title_handler : loc;
  _handler_chain : loc
}.

(** [json.loads]: the empty text is no JSON document; any other text is
    left to the decoder. *)
Definition json_loads (s : text) : outcome json :=
  match s with
  | [] => Raise JSONDecodeError
  | _ :: _ => json_decode s
  end.

(** [data[key]] on a decoded document; [members] lists the items of the
    decoded dictionary. *)
Fixpoint members_lookup (key : text) (members : list (text * json_value))
  : option json_value :=
  match members with
  | [] => None
  | (k, v) :: rest => if PyStr.eqb k key then Some v else members_lookup key rest
  end.

(** The fields of a [Course] are text ([models.py]).  A member that is
    not text is outside this model: the program stores it in the record
    as it is, and the model stops there with [Unmodelled], which stands
    for no exception of the program; the statements about the errors of
    the loader leave it out. *)
Definition getitem (data : json) (key : text) : outcome text :=
  match data with
  | JObject members =>
      match members_lookup key members with
      | Some (JString s) => Return s
      | Some JNonString => Raise (Unmodelled "catalog field is not text")
      | None => Raise (KeyError key)
      end
  | JOther => Raise TypeError
  end.

(** The exceptions a line of the file makes the loop body raise: the
    decoder rejects the line, the document is no object, or a key is
    missing. *)
Definition line_error (e : exn) : Prop :=
  e = JSONDecodeError ∨ e = TypeError ∨ ∃ key, e = KeyError key.

(** The body of the loop of [_load_courses] for one line. *)
Definition parse_course (line : text) : outcome Course :=
  match json_loads (PyStr.strip line) with
  | Raise e => Raise e
  | Return data =>
      match getitem data "id" with
      | Raise e => Raise e
      | Return i =>
          match getitem data "title" with
          | Raise e => Raise e
          | Return t =>
              match getitem data "description" with
              | Raise e => Raise e
              | Return d => Return (mkCourse i t d)
              end
          end
      end
  end.

(** The [for line in f] loop: [courses] grows by one record per line and
    keeps what it holds when a line raises. *)
Fixpoint load_loop (lines : list text) (courses : list Course)
  : list Course * outcome unit :=
  match lines with
  | [] => (courses, Return tt)
  | line :: rest =>
      match parse_course line with
      | Return course => load_loop rest (courses ++ [course])
      | Raise e => (courses, Raise e)
      end
  end.

(** [_load_courses]: the [try] block covers [open] and the loop; only
    [FileNotFoundError] is caught. *)
Definition _load_courses (path : text) : M (list Course) :=
  let '(courses, body) :=
    match open_lines path with
    | Return lines => load_loop lines []
    | Raise e => ([], Raise e)
    end in
  match body with
  | Return _ => ret courses
  | Raise FileNotFoundError =>
      run! print ("Warning: " ++ path ++ " not found.") in
      ret courses
  | Raise e => raise e
  end.

Definition _init_rag_components : M ContentStore :=
  run! print "Initializing RAG components..." in
  ret new_store.

Definition course_chunk (course : Course) : Chunk :=
  mk_chunk (id course) "0" 1 (title course ++ ": " ++ description course)
    [(txt "title", title course); (txt "id", id course)].

Definition _index_courses (store : ContentStore) (courses : list Course)
  : M ContentStore :=
  run! print "Indexing courses..." in
  let chunks := map course_chunk courses in
  let! store' := call (EvStore (length chunks)) (store_chunks store chunks) in
  run! print "Indexing complete." in
  ret store'.

(** [_build_handler_chain]: the three handlers are created from the last
    to the first, each a new object; the semantic handler receives the
    references held in [self.strategy] and [self.provider]. *)
Definition _build_handler_chain (σ : heap) (courses : list Course)
    (store : ContentStore) (strat prov : loc) : CSEChatbot :=
  let '(semantic, σ1) :=
    alloc σ (ObjHandler (SemanticHandler None courses (Some strat) (Some prov))) in
  let '(title_h, σ2) :=
    alloc σ1 (ObjHandler (CourseTitleHandler (Some semantic) courses)) in
  let '(chain, σ3) :=
    alloc σ2 (ObjHandler (CourseIdHandler (Some title_h) courses)) in
  mkChatbot σ3 courses store strat prov semantic title_h chain.

(** Lines 33 to 36 of [__init__]: [TopNStrategy()], [OllamaProvider()],
    then [_build_handler_chain]. *)
Definition init_policies (courses : list Course) (store : ContentStore) : CSEChatbot :=
  let '(strat, σ1) := alloc [] (ObjStrategy (TopNStrategy 3)) in
  let '(prov, σ2) := alloc σ1 (ObjProvider (OllamaProvider "phi3" "localhost" 11434)) in
  _build_handler_chain σ2 courses store strat prov.

(** The part of [__init__] after the catalog is loaded. *)
Definition construct (courses : list Course) : M CSEChatbot :=
  let! store0 := _init_rag_components in
  let! store := _index_courses store0 courses in
  ret (init_policies courses store).

Definition __init__ (data_path : text) : M CSEChatbot :=
  let! courses := _load_courses data_path in
  construct courses.

(** The name tables of [set_strategy] and [set_provider]; each entry
    stands for the class called with its default arguments. *)
Definition strategies : list (text * RetrievalStrategy) :=
  [(txt "top_n", TopNStrategy 3); (txt "window", WindowStrategy 1);
   (txt "document", DocumentStrategy); (txt "hierarchical", HierarchicalStrategy)].

Definition providers : list (text * LLMProvider) :=
  [(txt "ollama", OllamaProvider "phi3" "localhost" 11434);
   (txt "openai", OpenAIProvider); (txt "gemini", GeminiProvider)].

Fixpoint table_lookup {A} (name : text) (table : list (text * A)) : option A :=
  match table with
  | [] => None
  | (k, v) :: rest => if PyStr.eqb k name then Some v else table_lookup name rest
  end.

(** [self._semantic_handler.strategy = ref] *)
Definition set_handler_strategy (σ : heap) (h : loc) (ref : loc) : M heap :=
  match σ !! h with
  | Some (ObjHandler (SemanticHandler s c _ p)) =>
      ret (<[h := ObjHandler (SemanticHandler s c (Some ref) p)]> σ)
  | _ => raise AttributeError
  end.

(** [self._semantic_handler.provider = ref] *)
Definition set_handler_provider (σ : heap) (h : loc) (ref : loc) : M heap :=
  match σ !! h with
  | Some (ObjHandler (SemanticHandler s c st _)) =>
      ret (<[h := ObjHandler (SemanticHandler s c st (Some ref))]> σ)
  | _ => raise AttributeError
  end.

Definition with_strategy (self : CSEChatbot) (σ : heap) (ref : loc) : CSEChatbot :=
  mkChatbot σ (_courses self) (_store self) ref (provider self)
    (_semantic_handler self) (_title_handler self) (_handler_chain self).

Definition with_provider (self : CSEChatbot) (σ : heap) (ref : loc) : CSEChatbot :=
  mkChatbot σ (_courses self) (_store self) (strategy self) ref
    (_semantic_handler self) (_title_handler self) (_handler_chain self).

Definition set_strategy (self : CSEChatbot) (strategy_name : text) : M CSEChatbot :=
  match table_lookup strategy_name strategies with
  | Some s =>
      let '(ref, σ1) := alloc (objects self) (ObjStrategy s) in
      let! σ2 := set_handler_strategy σ1 (_semantic_handler self) ref in
      run! print ("Strategy changed to: " ++ strategy_name) in
      ret (with_strategy self σ2 ref)
  | None =>
      run! print ("Unknown strategy: " ++ strategy_name) in
      ret self
  end.

Definition set_provider (self : CSEChatbot) (provider_name : text) : M CSEChatbot :=
  match table_lookup provider_name providers with
  | Some p =>
      let '(ref, σ1) := alloc (objects self) (ObjProvider p) in
      let! σ2 := set_handler_provider σ1 (_semantic_handler self) ref in
      run! print ("Provider changed to: " ++ provider_name) in
      ret (with_provider self σ2 ref)
  | None =>
      run! print ("Unknown provider: " ++ provider_name) in
      ret self
  end.

Definition ask (depth : nat) (self : CSEChatbot) (question : text) : M text :=
  handle depth (objects self) (_handler_chain self) question (Some (_store self)).
End Chatbot.

(** ** Invariant of the controller *)

Section Invariant.
Context `{Collaborators}.

(** The [strategy] and [provider] attributes of the terminal handler. *)
Definition semantic_strategy (bot : CSEChatbot) : option loc :=
  match objects bot !! _semantic_handler bot with
  | Some (ObjHandler (SemanticHandler _ _ s _)) => s
  | _ => None
  end.

Definition semantic_provider (bot : CSEChatbot) : option loc :=
  match objects bot !! _semantic_handler bot with
  | Some (ObjHandler (SemanticHandler _ _ _ p)) => p
  | _ => None
  end.

(** The controller and the terminal handler refer to the same policy
    objects. *)
Definition consistent (bot : CSEChatbot) : Prop :=
  semantic_strategy bot = Some (strategy bot)
  ∧ semantic_provider bot = Some (provider bot).

(** The chain has the topology [_build_handler_chain] gives it, over the
    shared catalog, and the policy references name live policy objects. *)
Record chain_wf (bot : CSEChatbot) : Prop := {
  wf_head :
    objects bot !! _handler_chain bot
    = Some (ObjHandler (CourseIdHandler (Some (_title_handler bot)) (_courses bot)));
  wf_title :
    objects bot !! _title_handler bot
    = Some (ObjHandler (CourseTitleHandler (Some (_semantic_handler bot)) (_courses bot)));
  wf_semantic :
    objects bot !! _semantic_handler bot
    = Some (ObjHandler (SemanticHandler None (_courses bot)
                          (Some (strategy bot)) (Some (provider bot))));
  wf_strategy : ∃ s, objects bot !! strategy bot = Some (ObjStrategy s);
  wf_provider : ∃ p, objects bot !! provider bot = Some (ObjProvider p)
}.

(** The operations a caller can apply to a constructed controller. *)
Inductive operation :=
| OpSetStrategy (name : text)
| OpSetProvider (name : text)
| OpAsk (depth : nat) (question : text).

Definition apply_operation (op : operation) (bot : CSEChatbot) : M CSEChatbot :=
  match op with
  | OpSetStrategy name => set_strategy bot name
  | OpSetProvider name => set_provider bot name
  | OpAsk depth question => run! ask depth bot question in ret bot
  end.

(** The controller after a successful [set_strategy]. *)
Definition strategy_swapped (bot : CSEChatbot) (s : RetrievalStrategy) : CSEChatbot :=
  let ref := length (objects bot) in
  with_strategy bot
    (<[_semantic_handler bot :=
         ObjHandler (SemanticHandler None (_courses bot) (Some ref)
                       (Some (provider bot)))]>
       (objects bot ++ [ObjStrategy s]))
    ref.

(** The controller after a successful [set_provider]. *)
Definition provider_swapped (bot : CSEChatbot) (p : LLMProvider) : CSEChatbot :=
  let ref := length (objects bot) in
  with_provider bot
    (<[_semantic_handler bot :=
         ObjHandler (SemanticHandler None (_courses bot) (Some (strategy bot))
                       (Some ref))]>
       (objects bot ++ [ObjProvider p]))
    ref.

(** The controllers a caller can hold: built by [construct], then taken
    through any sequence of operations. *)
Inductive reachable : CSEChatbot → Prop :=
| reach_construct (courses : list Course) (evs : list event) (bot : CSEChatbot) :
    construct courses = (evs, Return bot) → reachable bot
| reach_operation (op : operation) (evs : list event) (bot bot' : CSEChatbot) :
    reachable bot → apply_operation op bot = (evs, Return bot') → reachable bot'.

(** The terminal stage as the chain runs it from the controller. *)
Definition semantic_stage (bot : CSEChatbot) (query : text) : M (option text) :=
  SemanticHandler_process (objects bot) (Some (strategy bot)) (Some (provider bot))
    query (Some (_store bot)).
End Invariant.

(** ** Vocabulary of the specification *)

Module Spec.
Section Vocabulary.
Context `{Unicode}.




(** Decimal digits of any script. *)
Definition all_decimal (s : text) : bool := forallb is_decimal s.

Fixpoint int_of_from (acc : Z) (s : text) : Z :=
  match s with
  | [] => acc
  | c :: r => int_of_from (10 * acc + decimal_value c) r
  end.

(** [int(s)] for a text of decimal digits. *)
Definition int_of (s : text) : Z := int_of_from 0 s.

Definition four_digits (tok : text) : bool :=
  Nat.eqb (length tok) 4 && all_decimal tok.

(** A run of four digits whose number lies in 1000..4999. *)
Definition in_valid_range (tok : text) : bool :=
  four_digits tok && (1000 <=? int_of tok)%Z && (int_of tok <=? 4999)%Z.

(** The digits [0] to [9] of ASCII. *)
Definition is_ascii_digit (c : N) : bool := ((48 <=? c) && (c <=? 57))%N.

Definition four_ascii_digits (tok : text) : bool :=
  Nat.eqb (length tok) 4 && forallb is_ascii_digit tok.

(** The first character is one of the ASCII digits [1], [2], [3], [4]. *)
Definition leading_1_to_4 (tok : text) : bool :=
  match tok with
  | [] => false
  | c :: _ => is_1_to_4 c
  end.

(** No word character right before and right after. *)
Definition word_bounded (pre post : text) : bool :=
  negb (is_word_at (last pre)) && negb (is_word_at (head post)).

(** [tok], between [pre] and [post], is an id-like token: a word-bounded
    run of exactly four decimal digits, the first of which is one of the
    ASCII digits 1, 2, 3 and 4. *)
Definition id_token (pre tok post : text) : Prop :=
  four_digits tok = true ∧ leading_1_to_4 tok = true ∧ word_bounded pre post = true.

(** [tok] is the leftmost part of [q] that is a token. *)
Definition leftmost (token : text → text → text → Prop) (q tok : text) : Prop :=
  ∃ pre post,
    q = pre ++ tok ++ post ∧ token pre tok post
    ∧ ∀ pre' tok' post',
        q = pre' ++ tok' ++ post' → token pre' tok' post' →
        length pre ≤ length pre'.

(** [tok] is the leftmost id-like token of [q]. *)
Definition leftmost_id_token (q tok : text) : Prop := leftmost id_token q tok.

(** [c] is the first course of the catalog whose id is [tok]. *)
Definition first_with_id (tok : text) (courses : list Course) (c : Course) : Prop :=
  ∃ before after,
    courses = before ++ c :: after ∧ id c = tok
    ∧ ∀ c', c' ∈ before → id c' ≠ tok.


(** Word-boundedness as the scan sees it: [prev] is the character before
    the scanned text. *)
Definition bounded_from (prev : option N) (pre post : text) : bool :=
  negb (is_word_at (match last pre with Some c => Some c | None => prev end))
  && negb (is_word_at (head post)).

Definition token_from (prev : option N) (pre tok post : text) : Prop :=
  four_digits tok = true ∧ leading_1_to_4 tok = true
  ∧ bounded_from prev pre post = true.


(** The two readings of "a word-bounded run of four digits in the range
    1000..4999" that take one kind of digit throughout. *)
Definition ascii_range_token (pre tok post : text) : Prop :=
  four_ascii_digits tok = true ∧ in_valid_range tok = true
  ∧ word_bounded pre post = true.

Definition decimal_range_token (pre tok post : text) : Prop :=
  in_valid_range tok = true ∧ word_bounded pre post = true.

End Vocabulary.
End Spec.

(** ** A concrete set of collaborators, for running the model

    The character tables are those of Python 3.11 (Unicode 14): the
    decimal digits and the white space of every script; the word
    characters, the letter cases and the context of the final sigma on
    the code points below 256 and on the Greek block U+0370 to U+03FF.
    Outside these the tables take a character for no letter.

    The store keeps its chunks in a list, is true as every object without
    a length is, answers a lookup over an index that holds chunks with
    the first [k] of them and fails on an empty index; the generation
    service returns a fixed text; the file system holds one file, whose
    only line is blank. *)

Module Demo.

Definition in_range (r : N * N) (c : N) : bool := ((r.1 <=? c) && (c <=? r.2))%N.

Definition in_ranges (ranges : list (N * N)) (c : N) : bool :=
  existsb (λ r, in_range r c) ranges.

(** The characters of category Nd; each range starts at a digit zero. *)
Definition decimal_ranges : list (N * N) :=
  [(48, 57); (1632, 1641); (1776, 1785); (1984, 1993); (2406, 2415);
   (2534, 2543); (2662, 2671); (2790, 2799); (2918, 2927); (3046, 3055);
   (3174, 3183); (3302, 3311); (3430, 3439); (3558, 3567); (3664, 3673);
   (3792, 3801); (3872, 3881); (4160, 4169); (4240, 4249); (6112, 6121);
   (6160, 6169); (6470, 6479); (6608, 6617); (6784, 6793); (6800, 6809);
   (6992, 7001); (7088, 7097); (7232, 7241); (7248, 7257); (42528, 42537);
   (43216, 43225); (43264, 43273); (43472, 43481); (43504, 43513);
   (43600, 43609); (44016, 44025); (65296, 65305); (66720, 66729);
   (68912, 68921); (69734, 69743); (69872, 69881); (69942, 69951);
   (70096, 70105); (70384, 70393); (70736, 70745); (70864, 70873);
   (71248, 71257); (71360, 71369); (71472, 71481); (71904, 71913);
   (72016, 72025); (72784, 72793); (73040, 73049); (73120, 73129);
   (92768, 92777); (92864, 92873); (93008, 93017); (120782, 120831);
   (123200, 123209); (123632, 123641); (125264, 125273); (130032, 130041)]%N.

Definition decimal (c : N) : bool := in_ranges decimal_ranges c.

Definition value (c : N) : Z :=
  match List.find (λ r, in_range r c) decimal_ranges with
  | Some r => Z.of_N ((c - r.1) mod 10)
  | None => 0
  end.

(** Letters and other numerals below 256 and in the Greek block, and the
    underscore. *)
Definition letter_ranges : list (N * N) :=
  [(65, 90); (95, 95); (97, 122); (170, 170); (178, 179); (181, 181);
   (185, 186); (188, 190); (192, 214); (216, 246); (248, 255);
   (880, 884); (886, 887); (890, 893); (895, 895); (902, 902); (904, 906);
   (908, 908); (910, 929); (931, 1013); (1015, 1023)]%N.

Definition word (c : N) : bool := decimal c || in_ranges letter_ranges c.

Definition space_ranges : list (N * N) :=
  [(9, 13); (28, 32); (133, 133); (160, 160); (5760, 5760); (8192, 8202);
   (8232, 8233); (8239, 8239); (8287, 8287); (12288, 12288)]%N.

Definition space (c : N) : bool := in_ranges space_ranges c.

(** The capitals of a range and where the lower-case forms start. *)
Definition lower_table : list (N * N * N) :=
  [(65, 90, 97); (192, 214, 224); (216, 222, 248);
   (880, 880, 881); (882, 882, 883); (886, 886, 887); (895, 895, 1011);
   (902, 902, 940); (904, 906, 941); (908, 908, 972); (910, 911, 973);
   (913, 929, 945); (931, 939, 963); (975, 975, 983);
   (984, 984, 985); (986, 986, 987); (988, 988, 989); (990, 990, 991);
   (992, 992, 993); (994, 994, 995); (996, 996, 997); (998, 998, 999);
   (1000, 1000, 1001); (1002, 1002, 1003); (1004, 1004, 1005);
   (1006, 1006, 1007); (1012, 1012, 952); (1015, 1015, 1016);
   (1017, 1017, 1010); (1018, 1018, 1019); (1021, 1023, 891)]%N.

Definition lower_char (c : N) : N :=
  match List.find (λ e, in_range e.1 c) lower_table with
  | Some e => (e.2 + (c - e.1.1))%N
  | None => c
  end.

(** Characters the context of a final sigma looks through. *)
Definition case_ignorable_ranges : list (N * N) :=
  [(39, 39); (46, 46); (58, 58); (94, 94); (96, 96); (168, 168); (173, 173);
   (175, 175); (180, 180); (183, 184); (884, 885); (890, 890); (900, 901);
   (903, 903)]%N.

(** The cased characters among those it does not look through. *)
Definition cased_ranges : list (N * N) :=
  [(65, 90); (97, 122); (170, 170); (181, 181); (186, 186); (192, 214);
   (216, 246); (248, 255); (880, 883); (886, 887); (891, 893); (895, 895);
   (902, 902); (904, 906); (908, 908); (910, 929); (931, 1013);
   (1015, 1023)]%N.

(** The first character of [s] that is not case-ignorable. *)
Fixpoint skip_ignorable (s : text) : option N :=
  match s with
  | [] => None
  | c :: r => if in_ranges case_ignorable_ranges c then skip_ignorable r else Some c
  end.

(** A capital sigma is final when a cased character precedes it and none
    follows it; [before] is the text before the sigma, last character
    first. *)
Definition final_sigma (before after : text) : bool :=
  match skip_ignorable before with
  | Some c =>
      in_ranges cased_ranges c
      && match skip_ignorable after with
         | Some c' => negb (in_ranges cased_ranges c')
         | None => true
         end
  | None => false
  end.

Fixpoint lower_from (before s : text) : text :=
  match s with
  | [] => []
  | c :: r =>
      (if (c =? 931)%N
       then if final_sigma before r then 962%N else 963%N
       else lower_char c)
        :: lower_from (c :: before) r
  end.

Definition lower_text (s : text) : text := lower_from [] s.

(** No lower-case form is white space. *)
Definition lower_table_ok : bool :=
  forallb (λ e : N * N * N,
     forallb (λ s : N * N, (s.2 <? e.2) || (e.2 + (e.1.2 - e.1.1) <? s.1))%N
       space_ranges) lower_table.

Definition unicode_tables : Unicode.
Proof.
  refine {| is_decimal := decimal; decimal_value := value; is_word := word;
            is_space := space; lower := lower_text |}.
  - intros c Hc.
    assert (in_range (48, 57)%N c = true) as Hr.
    { unfold in_range. cbn [fst snd]. apply andb_true_intro.
      split; apply N.leb_le; lia. }
    unfold decimal, value, in_ranges, decimal_ranges.
    cbn [existsb List.find]. rewrite Hr. cbn [orb fst].
    clear Hr. split; [reflexivity |]. rewrite N.mod_small by lia. lia.
  - intros c _. unfold value.
    destruct (List.find _ _) as [r|]; [| lia].
    assert ((c - r.1) mod 10 < 10)%N as Hlt by (apply N.mod_lt; lia).
    revert Hlt. generalize ((c - r.1) mod 10)%N. lia.
  - intros c Hc. unfold word. now rewrite Hc.
  - reflexivity.
  - reflexivity.
  - assert (Hchar : ∀ c, space c = false → space (lower_char c) = false).
    { intros c Hc. unfold lower_char.
      destruct (List.find _ _) as [[[lo hi] nlo]|] eqn:E; [| exact Hc].
      apply List.find_some in E as [Hin Hr]. cbn [fst snd] in *.
      unfold in_range in Hr. cbn [fst snd] in Hr.
      apply andb_true_iff in Hr as [Hlo Hhi].
      apply N.leb_le in Hlo, Hhi.
      assert (lower_table_ok = true) as Hok by reflexivity.
      unfold lower_table_ok in Hok.
      rewrite List.forallb_forall in Hok. specialize (Hok _ Hin).
      rewrite List.forallb_forall in Hok. cbn [fst snd] in Hok.
      destruct (space (nlo + (c - lo))) eqn:Es; [| reflexivity].
      unfold space, in_ranges in Es.
      apply List.existsb_exists in Es as ([slo shi] & Hs & Hr).
      specialize (Hok _ Hs). cbn [fst snd] in Hok.
      unfold in_range in Hr. cbn [fst snd] in Hr.
      apply andb_true_iff in Hr as [H1 H2]. apply N.leb_le in H1, H2.
      apply orb_true_iff in Hok as [Hok | Hok]; apply N.ltb_lt in Hok; lia. }
    assert (Hfrom : ∀ s before,
              forallb (λ c, negb (space c)) s = true →
              forallb (λ c, negb (space c)) (lower_from before s) = true).
    { induction s as [|c s IH]; intros before Hs; [reflexivity |].
      cbn [forallb lower_from] in *.
      apply andb_true_iff in Hs as [Hc Hs].
      rewrite (IH _ Hs), andb_true_r.
      destruct (c =? 931)%N.
      - destruct (final_sigma before s); reflexivity.
      - apply negb_true_iff in Hc. now rewrite (Hchar _ Hc). }
    intros s. apply Hfrom.
Defined.

Record chunk := make_chunk {
  document_id : text;
  chunk_id : text;
  total_chunks : Z;
  body : text;
  properties : list (text * text)
}.

Definition blank_file : text := "blank.jsonl".

Definition collaborators : Collaborators := {|
  unicode := unicode_tables;
  ContentStore := list chunk;
  Chunk := chunk;
  mk_chunk := make_chunk;
  chunk_text := body;
  chunk_repr := fun c => "Chunk(" ++ document_id c ++ ")";
  new_store := [];
  store_chunks := fun store chunks => Return (store ++ chunks);
  find_relevant_chunks := fun store _ k =>
    match store with
    | [] => Raise TypeError
    | _ :: _ => Return (take (Z.to_nat k) store)
    end;
  store_truthy := fun _ => true;
  ollama_generate := fun _ _ _ _ _ => Return (txt "generated text");
  open_lines := fun path =>
    if PyStr.eqb path blank_file then Return [newline] else Raise FileNotFoundError;
  json_decode := fun _ => Raise JSONDecodeError
|}.

Definition course_4361 : Course :=
  mkCourse "4361" "Software Design Patterns" "Reusable object-oriented designs".
Definition course_2320 : Course :=
  mkCourse "2320" "Data Structures" "Lists, trees and graphs".
Definition catalog : list Course := [course_4361; course_2320].

(** A course with a Greek title, in capitals: U+039F U+0394 U+039F
    U+03A3. *)
Definition course_1100 : Course :=
  mkCourse "1100" [927; 916; 927; 931]%N "Road design".
Definition greek_catalog : list Course := [course_1100; course_2320].


(** [1234] written with the ASCII digit one and the Devanagari digits
    two, three and four (U+0968 to U+096A). *)
Definition mixed_1234 : text := [49; 2408; 2409; 2410]%N.

(** [1234] written with the full-width digit one (U+FF11) and the ASCII
    digits two, three and four. *)
Definition fullwidth_1234 : text := [65297; 50; 51; 52]%N.

(** The controller constructed over [catalog]. *)
Definition bot : @CSEChatbot collaborators :=
  init_policies (H := collaborators) catalog
    (map (course_chunk (H := collaborators)) catalog : list chunk).

(** The controller constructed over [greek_catalog]. *)
Definition greek_bot : @CSEChatbot collaborators :=
  init_policies (H := collaborators) greek_catalog
    (map (course_chunk (H := collaborators)) greek_catalog : list chunk).

(** The controller over [catalog] after [set_provider] with [openai]. *)
Definition bot_openai : @CSEChatbot collaborators :=
  with_provider bot
    (<[2 := ObjHandler (SemanticHandler None catalog (Some 0) (Some 5))]>
       (objects bot ++ [ObjProvider OpenAIProvider]))
    5.

End Demo.
(** ** chatbot.py: the interactive loop *)

Section Words.
Context `{Unicode}.

(** [s.split()]: the maximal runs of characters that are not white
    space.  [cur] is the run being read. *)
Fixpoint split_from (cur : text) (s : text) : list text :=
  match s with
  | [] => match cur with [] => [] | _ :: _ => [cur] end
  | c :: r =>
      if is_space c
      then match cur with
           | [] => split_from [] r
           | _ :: _ => cur :: split_from [] r
           end
      else split_from (cur ++ [c]) r
  end.

Definition split (s : text) : list text := split_from [] s.

Definition no_space (s : text) : bool := forallb (λ c, negb (is_space c)) s.
End Words.

(** [s * n] *)
Fixpoint repeat_str (s : text) (n : nat) : text :=
  match n with
  | O => []
  | S n' => s ++ repeat_str s n'
  end.

(** What the user does at a prompt: type a line (without its newline), or
    interrupt.  An interrupt is taken at the prompt only. *)
Inductive keyboard := Typed (line : text) | Interrupt.

(** What reaches the terminal: the prompt of [input], or an event of the
    controller. *)
Inductive console := Prompt (prompt : text) | Out (ev : event).

(** How [main] ends: by leaving the loop, or by an exception nothing
    catches ([EOFError] from [input] at the end of the input, [IndexError]
    from [[-1]] on an empty list, or one raised by the controller). *)
Inductive ending :=
| Finished
| EOFError
| IndexError
| Uncaught (e : exn).

Definition and_then (out : list console) (r : list console * ending)
  : list console * ending :=
  (out ++ fst r, snd r).

Section Main.
Context `{Collaborators}.

(** The [while True] loop of [main], over what the user does. *)
Fixpoint main_loop (depth : nat) (chatbot : CSEChatbot) (keys : list keyboard)
  : list console * ending :=
  match keys with
  | [] => ([Prompt "You: "], EOFError)
  | Interrupt :: _ =>
      ([Prompt "You: "; Out (EvPrint (newline ++ "Goodbye!"))], Finished)
  | Typed raw :: rest =>
      let user_input := PyStr.strip raw in
      if negb (PyStr.truthy user_input) then
        and_then [Prompt "You: "] (main_loop depth chatbot rest)
      else if PyStr.eqb (lower user_input) "exit" then
        ([Prompt "You: "; Out (EvPrint "Goodbye!")], Finished)
      else if PyStr.startswith "set strategy " (lower user_input) then
        match last (split user_input) with
        | None => ([Prompt "You: "], IndexError)
        | Some name =>
            match set_strategy chatbot name with
            | (evs, Return chatbot') =>
                and_then (Prompt "You: " :: map Out evs) (main_loop depth chatbot' rest)
            | (evs, Raise e) => (Prompt "You: " :: map Out evs, Uncaught e)
            end
        end
      else if PyStr.startswith "set provider " (lower user_input) then
        match last (split user_input) with
        | None => ([Prompt "You: "], IndexError)
        | Some name =>
            match set_provider chatbot name with
            | (evs, Return chatbot') =>
                and_then (Prompt "You: " :: map Out evs) (main_loop depth chatbot' rest)
            | (evs, Raise e) => (Prompt "You: " :: map Out evs, Uncaught e)
            end
        end
      else
        match ask depth chatbot user_input with
        | (evs, Return response) =>
            and_then
              (Prompt "You: " :: map Out evs
                 ++ [Out (EvPrint ("Bot: " ++ response ++ newline))])
              (main_loop depth chatbot rest)
        | (evs, Raise e) => (Prompt "You: " :: map Out evs, Uncaught e)
        end
  end.

Definition banner : list console :=
  [Out (EvPrint (newline ++ "CSE Course Chatbot"));
   Out (EvPrint "Commands: 'exit', 'set strategy <name>', 'set provider <name>'");
   Out (EvPrint (repeat_str "-" 40))].

(** [main] *)
Definition main (depth : nat) (keys : list keyboard) : list console * ending :=
  match __init__ "courses.jsonl" with
  | (evs, Return chatbot) =>
      and_then (map Out evs ++ banner) (main_loop depth chatbot keys)
  | (evs, Raise e) => (map Out evs, Uncaught e)
  end.




(** The tag a provider puts in front of its answers. *)
Definition provider_tag (p : LLMProvider) : text :=
  match p with
  | OllamaProvider _ _ _ => "[Ollama] "
  | OpenAIProvider => "[OpenAI] "
  | GeminiProvider => "[Gemini] "
  end.

(** The number of chunks a strategy asks the store for. *)
Definition requested_chunks (s : RetrievalStrategy) : Z :=
  match s with
  | TopNStrategy n => n
  | WindowStrategy _ => 3
  | DocumentStrategy => 5
  | HierarchicalStrategy => 3
  end.

(** The policy objects the controller refers to. *)
Definition active_strategy (bot : CSEChatbot) : option RetrievalStrategy :=
  match objects bot !! strategy bot with
  | Some (ObjStrategy s) => Some s
  | _ => None
  end.

Definition active_provider (bot : CSEChatbot) : option LLMProvider :=
  match objects bot !! provider bot with
  | Some (ObjProvider p) => Some p
  | _ => None
  end.

(** A sequence of operations, stopping at the first that raises. *)
Fixpoint apply_operations (ops : list operation) (bot : CSEChatbot) : M CSEChatbot :=
  match ops with
  | [] => ret bot
  | op :: rest =>
      let! bot' := apply_operation op bot in
      apply_operations rest bot'
  end.
End Main.

(** ** A file system with catalog files, for running the loader

    [courses.jsonl] holds the two courses of [Demo.catalog], one JSON object
    per line; in [broken.jsonl] the second record lacks its title.  The
    decoder knows the three texts of these files. *)

Module DemoFile.

Definition dq : text := [34%N].

(** The member [key: value] of a JSON object, as text. *)
Definition member (key value : text) : text :=
  dq ++ key ++ dq ++ ": " ++ dq ++ value ++ dq.

Definition record (c : Course) : text :=
  "{" ++ member "id" (id c) ++ ", " ++ member "title" (title c) ++ ", "
    ++ member "description" (description c) ++ "}".

Definition untitled_record (c : Course) : text :=
  "{" ++ member "id" (id c) ++ ", "
    ++ member "description" (description c) ++ "}".

Definition decoded (c : Course) : json :=
  JObject [(txt "id", JString (id c)); (txt "title", JString (title c));
           (txt "description", JString (description c))].

Definition decode (s : text) : outcome json :=
  if PyStr.eqb s (record Demo.course_4361) then Return (decoded Demo.course_4361)
  else if PyStr.eqb s (record Demo.course_2320) then Return (decoded Demo.course_2320)
  else if PyStr.eqb s (untitled_record Demo.course_2320)
  then Return (JObject [(txt "id", JString "2320");
                        (txt "description", JString "Lists, trees and graphs")])
  else Raise JSONDecodeError.

Definition files (path : text) : outcome (list text) :=
  if PyStr.eqb path "courses.jsonl"
  then Return [record Demo.course_4361 ++ newline; record Demo.course_2320 ++ newline]
  else if PyStr.eqb path "broken.jsonl"
  then Return [record Demo.course_4361 ++ newline;
               untitled_record Demo.course_2320 ++ newline;
               record Demo.course_2320 ++ newline]
  else Raise FileNotFoundError.

(** The collaborators of [Demo] with a catalog file whose only line is
    blank. *)
Definition blank_catalog : Collaborators := {|
  unicode := Demo.unicode_tables;
  ContentStore := ContentStore (Collaborators := Demo.collaborators);
  Chunk := Chunk (Collaborators := Demo.collaborators);
  mk_chunk := mk_chunk (Collaborators := Demo.collaborators);
  chunk_text := chunk_text (Collaborators := Demo.collaborators);
  chunk_repr := chunk_repr (Collaborators := Demo.collaborators);
  new_store := new_store (Collaborators := Demo.collaborators);
  store_chunks := store_chunks (Collaborators := Demo.collaborators);
  find_relevant_chunks := find_relevant_chunks (Collaborators := Demo.collaborators);
  store_truthy := store_truthy (Collaborators := Demo.collaborators);
  ollama_generate := ollama_generate (Collaborators := Demo.collaborators);
  open_lines := fun path =>
    if PyStr.eqb path "courses.jsonl" then Return [newline] else Raise FileNotFoundError;
  json_decode := fun _ => Raise JSONDecodeError
|}.

Definition collaborators : Collaborators := {|
  unicode := Demo.unicode_tables;
  ContentStore := ContentStore (Collaborators := Demo.collaborators);
  Chunk := Chunk (Collaborators := Demo.collaborators);
  mk_chunk := mk_chunk (Collaborators := Demo.collaborators);
  chunk_text := chunk_text (Collaborators := Demo.collaborators);
  chunk_repr := chunk_repr (Collaborators := Demo.collaborators);
  new_store := new_store (Collaborators := Demo.collaborators);
  store_chunks := store_chunks (Collaborators := Demo.collaborators);
  find_relevant_chunks := find_relevant_chunks (Collaborators := Demo.collaborators);
  store_truthy := store_truthy (Collaborators := Demo.collaborators);
  ollama_generate := ollama_generate (Collaborators := Demo.collaborators);
  open_lines := files;
  json_decode := decode
|}.

End DemoFile.

(** * Properties *)

(** ** Facts about Python strings *)

Module PyStrFacts.
Import PyStr.


Lemma startswith_inv (p s : text) :
  startswith p s = true → ∃ r, s = p ++ r.
Proof.
  revert s. induction p as [|c p IH]; intros s Hs.
  - exists s. reflexivity.
  - destruct s as [|d s]; simpl in Hs; [discriminate |].
    destruct (N.eqb c d) eqn:E; [| discriminate].
    apply N.eqb_eq in E. subst d.
    destruct (IH _ Hs) as [r ->]. exists r. reflexivity.
Qed.








Lemma truthy_spec (s : text) : truthy s = true ↔ s ≠ [].
Proof. destruct s; simpl; split; congruence. Qed.

Lemma eqb_eq (a b : text) : eqb a b = true ↔ a = b.
Proof. unfold eqb. apply bool_decide_eq_true. Qed.

Lemma eqb_neq (a b : text) : eqb a b = false ↔ a ≠ b.
Proof. unfold eqb. apply bool_decide_eq_false. Qed.

Lemma last_cons_some (c : N) (s : text) :
  last (c :: s) = Some (match last s with Some x => x | None => c end).
Proof.
  revert c. induction s as [|x s IH]; intros c; [reflexivity |].
  change (last (c :: x :: s)) with (last (x :: s)). rewrite IH.
  now destruct (last s).
Qed.

(** Two splittings of one text at the same place are the same. *)
Lemma app_inj_length (a b x y : text) :
  a ++ x = b ++ y → length a = length b → a = b ∧ x = y.
Proof.
  revert b. induction a as [|u a IH]; intros [|v b] Heq Hl; simpl in *;
    try discriminate; [auto |].
  injection Heq as -> Heq. injection Hl as Hl.
  destruct (IH _ Heq Hl) as [-> ->]. auto.
Qed.

End PyStrFacts.

(** ** The identifier pattern *)

Module IdScan.
Section Scan.
Context `{Unicode}.
Import PyStr PyStrFacts.
Import Spec (bounded_from, token_from).

Lemma token_from_start (pre tok post : text) :
  token_from None pre tok post ↔ Spec.id_token pre tok post.
Proof.
  unfold Spec.token_from, Spec.id_token, Spec.bounded_from, Spec.word_bounded.
  destruct (last pre); simpl; tauto.
Qed.

Lemma four_digits_inv (tok : text) :
  Spec.four_digits tok = true →
  ∃ d1 d2 d3 d4,
    tok = [d1; d2; d3; d4]
    ∧ is_decimal d1 = true ∧ is_decimal d2 = true
    ∧ is_decimal d3 = true ∧ is_decimal d4 = true.
Proof.
  unfold Spec.four_digits, Spec.all_decimal. intros Hf.
  apply andb_true_iff in Hf as [Hl Hd]. apply Nat.eqb_eq in Hl.
  destruct tok as [|d1 [|d2 [|d3 [|d4 [|d5 r]]]]]; simpl in Hl; try discriminate.
  simpl in Hd. rewrite !andb_true_iff in Hd.
  exists d1, d2, d3, d4. tauto.
Qed.

Lemma four_digits_length (tok : text) :
  Spec.four_digits tok = true → length tok = 4.
Proof.
  unfold Spec.four_digits. intros Hf.
  apply andb_true_iff in Hf as [Hl _]. now apply Nat.eqb_eq in Hl.
Qed.

Lemma is_1_to_4_ascii (c : N) : is_1_to_4 c = true ↔ (49 ≤ c ≤ 52)%N.
Proof. unfold is_1_to_4. rewrite andb_true_iff, !N.leb_le. tauto. Qed.

Lemma is_1_to_4_decimal (c : N) : is_1_to_4 c = true → is_decimal c = true.
Proof.
  intros Hc. apply is_1_to_4_ascii in Hc.
  apply (ascii_digit c). lia.
Qed.

(** Before a word character, [\b] holds when no word character
    precedes; after one, when none follows. *)
Lemma boundary_before_word (prev : option N) (c : N) :
  is_word c = true → boundary prev (Some c) = negb (is_word_at prev).
Proof.
  intros Hc. unfold boundary. cbn [is_word_at]. rewrite Hc.
  now destruct (is_word_at prev).
Qed.

Lemma boundary_after_word (c : N) (next : option N) :
  is_word c = true → boundary (Some c) next = negb (is_word_at next).
Proof.
  intros Hc. unfold boundary. cbn [is_word_at]. rewrite Hc. reflexivity.
Qed.

(** The pattern matches at the head of the text exactly when the text
    starts with an id-like token. *)
Lemma id_pattern_here_spec (prev : option N) (s : text) :
  id_pattern_here prev s = true
  ↔ ∃ tok post, s = tok ++ post ∧ token_from prev [] tok post.
Proof.
  unfold token_from, bounded_from. cbn [last]. split.
  - intros Hm.
    destruct s as [|c1 [|c2 [|c3 [|c4 rest]]]]; simpl in Hm; try discriminate.
    rewrite !andb_true_iff in Hm.
    destruct Hm as (((((H0 & H1) & H2) & H3) & H4) & H5).
    pose proof (is_1_to_4_decimal _ H1) as Hd1.
    rewrite boundary_before_word in H0 by now apply decimal_is_word.
    rewrite boundary_after_word in H5 by now apply decimal_is_word.
    exists [c1; c2; c3; c4], rest.
    split; [reflexivity |]. unfold Spec.four_digits, Spec.all_decimal.
    cbn [length Nat.eqb forallb Spec.leading_1_to_4].
    rewrite Hd1, H1, H2, H3, H4, H0, H5. auto.
  - intros (tok & post & -> & Hf & Hl & Hb).
    destruct (four_digits_inv _ Hf) as (d1 & d2 & d3 & d4 & -> & Hd1 & H2 & H3 & H4).
    cbn [Spec.leading_1_to_4] in Hl. apply andb_true_iff in Hb as [Hp Hb].
    cbn [app id_pattern_here].
    rewrite boundary_before_word by now apply decimal_is_word.
    rewrite boundary_after_word by now apply decimal_is_word.
    now rewrite Hp, Hl, H2, H3, H4, Hb.
Qed.

Lemma token_from_cons (prev : option N) (c : N) (pre tok post : text) :
  token_from prev (c :: pre) tok post ↔ token_from (Some c) pre tok post.
Proof.
  unfold token_from, bounded_from. rewrite last_cons_some.
  destruct (last pre); tauto.
Qed.

(** The scan returns the leftmost id-like token, and nothing exactly
    when there is none. *)
Lemma search_id_from_spec (prev : option N) (s : text) :
  match search_id_from prev s with
  | Some tok =>
      ∃ pre post,
        s = pre ++ tok ++ post ∧ token_from prev pre tok post
        ∧ ∀ pre' tok' post',
            s = pre' ++ tok' ++ post' → token_from prev pre' tok' post' →
            length pre ≤ length pre'
  | None => ∀ pre tok post, s = pre ++ tok ++ post → ¬ token_from prev pre tok post
  end.
Proof.
  revert prev. induction s as [|c r IH]; intros prev.
  - simpl. intros pre tok post Hs (Hf & _).
    symmetry in Hs. apply app_eq_nil in Hs as [_ Hs].
    apply app_eq_nil in Hs as [-> _]. discriminate.
  - cbn [search_id_from].
    destruct (id_pattern_here prev (c :: r)) eqn:Hhere.
    + apply id_pattern_here_spec in Hhere as (tok & post & Hs & Htok).
      exists [], post.
      assert (take 4 (c :: r) = tok) as ->.
      { rewrite Hs. destruct Htok as (Hf & _).
        rewrite <- (four_digits_length _ Hf). apply take_app_length. }
      split; [exact Hs |]. split; [exact Htok |]. intros; simpl; lia.
    + assert (Hnone : ∀ tok post, c :: r = tok ++ post →
                                  ¬ token_from prev [] tok post).
      { intros tok post Hs Htok.
        assert (id_pattern_here prev (c :: r) = true) as Hyes
          by (apply id_pattern_here_spec; eauto).
        congruence. }
      specialize (IH (Some c)).
      destruct (search_id_from (Some c) r) as [tok|].
      * destruct IH as (pre & post & -> & Htok & Hleft).
        exists (c :: pre), post. split; [reflexivity |].
        split; [now apply token_from_cons |].
        intros [|c' pre'] tok' post' Hs Htok'.
        { exfalso. exact (Hnone tok' post' Hs Htok'). }
        simpl in Hs. injection Hs as -> Hs.
        apply token_from_cons in Htok'.
        specialize (Hleft _ _ _ Hs Htok'). simpl. lia.
      * intros [|c' pre] tok post Hs Htok.
        { exact (Hnone tok post Hs Htok). }
        simpl in Hs. injection Hs as -> Hs.
        apply token_from_cons in Htok. exact (IH _ _ _ Hs Htok).
Qed.

Lemma search_id_some (q tok : text) :
  search_id q = Some tok → Spec.leftmost_id_token q tok.
Proof.
  unfold search_id. intros Hs.
  pose proof (search_id_from_spec None q) as Hspec. rewrite Hs in Hspec.
  destruct Hspec as (pre & post & Hq & Htok & Hleft).
  exists pre, post. split; [exact Hq |].
  split; [now apply token_from_start |].
  intros pre' tok' post' Hq' Htok'. apply (Hleft _ _ _ Hq').
  now apply token_from_start.
Qed.

Lemma search_id_none (q : text) :
  search_id q = None →
  ∀ pre tok post, q = pre ++ tok ++ post → ¬ Spec.id_token pre tok post.
Proof.
  unfold search_id. intros Hs pre tok post Hq Htok.
  pose proof (search_id_from_spec None q) as Hspec. rewrite Hs in Hspec.
  apply (Hspec _ _ _ Hq). now apply token_from_start.
Qed.

(** The leftmost id-like token is unique, and it is what the scan returns. *)
Lemma leftmost_search_id (q tok : text) :
  Spec.leftmost_id_token q tok → search_id q = Some tok.
Proof.
  intros (pre & post & Hq & Htok & Hleft).
  destruct (search_id q) as [tok'|] eqn:Hs.
  - apply search_id_some in Hs as (pre' & post' & Hq' & Htok' & Hleft').
    pose proof (Hleft _ _ _ Hq' Htok') as H1.
    pose proof (Hleft' _ _ _ Hq Htok) as H2.
    assert (length pre = length pre') as Hlen by lia.
    rewrite Hq' in Hq. apply app_inj_length in Hq as [_ Hq]; [| lia].
    destruct Htok as (Hf & _), Htok' as (Hf' & _).
    apply app_inj_length in Hq as [-> _]; [reflexivity |].
    now rewrite (four_digits_length _ Hf), (four_digits_length _ Hf').
  - exfalso. exact (search_id_none _ Hs _ _ _ Hq Htok).
Qed.

End Scan.
End IdScan.

(** ** The numeric range of identifiers *)

Module IdRange.
Section Range.
Context `{Unicode}.
Import PyStr IdScan.

Lemma decimal_value_1_to_4 (c : N) :
  is_1_to_4 c = true → (1 ≤ decimal_value c ≤ 4)%Z.
Proof.
  intros Hc. apply is_1_to_4_ascii in Hc.
  destruct (ascii_digit c) as [_ ->]; lia.
Qed.

(** A run of four decimal digits that starts with one of the ASCII
    digits 1 to 4 reads as a number in 1000..4999. *)
Lemma leading_digit_range (tok : text) :
  Spec.four_digits tok = true → Spec.leading_1_to_4 tok = true →
  (1000 ≤ Spec.int_of tok ≤ 4999)%Z.
Proof.
  intros Hf Hl.
  destruct (four_digits_inv _ Hf) as (d1 & d2 & d3 & d4 & -> & H1 & H2 & H3 & H4).
  cbn [Spec.leading_1_to_4] in Hl. apply decimal_value_1_to_4 in Hl.
  unfold Spec.int_of. cbn [Spec.int_of_from].
  apply decimal_value_bounds in H2, H3, H4. lia.
Qed.

Lemma id_token_in_valid_range (pre tok post : text) :
  Spec.id_token pre tok post → Spec.in_valid_range tok = true.
Proof.
  intros (Hf & Hl & _). unfold Spec.in_valid_range.
  pose proof (leading_digit_range _ Hf Hl) as [Hlo Hhi].
  rewrite Hf. apply Z.leb_le in Hlo, Hhi. now rewrite Hlo, Hhi.
Qed.

(** Among runs of four ASCII digits, a leading 1, 2, 3 or 4 is the same
    as a number in 1000..4999. *)
Lemma four_ascii_digits_decimal (tok : text) :
  Spec.four_ascii_digits tok = true → Spec.four_digits tok = true.
Proof.
  unfold Spec.four_ascii_digits, Spec.four_digits, Spec.all_decimal.
  rewrite !andb_true_iff, !forallb_forall. intros [Hl Ha]. split; [exact Hl |].
  intros c Hin. specialize (Ha _ Hin). unfold Spec.is_ascii_digit in Ha.
  apply andb_true_iff in Ha as [H1 H2]. apply N.leb_le in H1, H2.
  now apply (ascii_digit c).
Qed.

Lemma ascii_leading_digit_range (tok : text) :
  Spec.four_ascii_digits tok = true →
  Spec.leading_1_to_4 tok = true ↔ (1000 ≤ Spec.int_of tok ≤ 4999)%Z.
Proof.
  intros Ha. split.
  - apply leading_digit_range. now apply four_ascii_digits_decimal.
  - unfold Spec.four_ascii_digits in Ha. apply andb_true_iff in Ha as [Hl Ha].
    apply Nat.eqb_eq in Hl.
    destruct tok as [|d1 [|d2 [|d3 [|d4 [|d5 r]]]]]; simpl in Hl; try discriminate.
    cbn [forallb] in Ha. rewrite !andb_true_iff in Ha.
    destruct Ha as (H1 & H2 & H3 & H4 & _).
    unfold Spec.is_ascii_digit in *.
    rewrite andb_true_iff, !N.leb_le in H1, H2, H3, H4.
    unfold Spec.int_of. cbn [Spec.int_of_from Spec.leading_1_to_4].
    destruct (ascii_digit d1) as [_ ->]; [lia |].
    destruct (ascii_digit d2) as [_ ->]; [lia |].
    destruct (ascii_digit d3) as [_ ->]; [lia |].
    destruct (ascii_digit d4) as [_ ->]; [lia |].
    intros Hr. apply is_1_to_4_ascii. lia.
Qed.

End Range.
End IdRange.

(** ** The catalog loops and the answers of the first two stages *)

Module CatalogFacts.
Section Catalog.
Context `{Unicode}.
Import PyStr PyStrFacts.

Lemma find_by_id_some (tok : text) (courses : list Course) (c : Course) :
  find_by_id tok courses = Some c ↔ Spec.first_with_id tok courses c.
Proof.
  split.
  - induction courses as [|x rest IH]; simpl; [discriminate |].
    destruct (eqb (id x) tok) eqn:E.
    + intros [= ->]. apply eqb_eq in E.
      exists [], rest. split; [reflexivity |]. split; [exact E |].
      intros c' Hin. inversion Hin.
    + intros Hf. apply eqb_neq in E.
      destruct (IH Hf) as (before & after & -> & Hid & Hb).
      exists (x :: before), after. split; [reflexivity |]. split; [exact Hid |].
      intros c' Hin. apply elem_of_cons in Hin as [-> | Hin]; auto.
  - intros (before & after & -> & Hid & Hb).
    induction before as [|x before IH]; simpl.
    + apply eqb_eq in Hid. now rewrite Hid.
    + assert (id x ≠ tok) as Hx by (apply Hb; left).
      apply eqb_neq in Hx. rewrite Hx.
      apply IH. intros c' Hin. apply Hb. now right.
Qed.

Lemma find_by_id_none (tok : text) (courses : list Course) :
  find_by_id tok courses = None ↔ ∀ c, c ∈ courses → id c ≠ tok.
Proof.
  induction courses as [|x rest IH]; simpl.
  - split; [intros _ c Hin; inversion Hin | reflexivity].
  - destruct (eqb (id x) tok) eqn:E.
    + apply eqb_eq in E. split; [discriminate |].
      intros Hall. exfalso. apply (Hall x); [left | exact E].
    + apply eqb_neq in E. rewrite IH. split.
      * intros Hall c Hin. apply elem_of_cons in Hin as [-> | Hin]; auto.
      * intros Hall c Hin. apply Hall. now right.
Qed.








Lemma id_answer_truthy (c : Course) : id_answer c ≠ [].
Proof. unfold id_answer. discriminate. Qed.

Lemma title_answer_truthy (c : Course) : title_answer c ≠ [].
Proof. unfold title_answer. discriminate. Qed.

(** What the identifier stage answers, it answers for the first course
    whose id is the token the scan extracts. *)
Lemma id_stage_some (courses : list Course) (q a : text) :
  CourseIdHandler_process courses q = Some a
  ↔ ∃ tok c, search_id q = Some tok ∧ find_by_id tok courses = Some c
             ∧ a = id_answer c.
Proof.
  unfold CourseIdHandler_process. split.
  - destruct (search_id q) as [tok|]; [| discriminate].
    destruct (find_by_id tok courses) as [c|] eqn:Hf; [| discriminate].
    intros [= <-]. eauto.
  - intros (tok & c & -> & -> & ->). reflexivity.
Qed.

End Catalog.
End CatalogFacts.

(** ** Positions of a text

    A part of four characters of a text is given by where it starts, so a
    property of the parts before a position is decided by looking at
    each. *)

Module Positions.
Import PyStrFacts.

Definition part_at (P : text → text → text → bool) (q : text) (n : nat) : bool :=
  P (take n q) (take 4 (drop n q)) (drop (n + 4) q).

Lemma split_at (q pre tok post : text) :
  q = pre ++ tok ++ post → length tok = 4 →
  pre = take (length pre) q ∧ tok = take 4 (drop (length pre) q)
  ∧ post = drop (length pre + 4) q.
Proof.
  intros -> Hl. split; [| split].
  - symmetry. apply take_app_length.
  - rewrite drop_app_length, <- Hl. symmetry. apply take_app_length.
  - rewrite <- drop_drop, drop_app_length, <- Hl. symmetry. apply drop_app_length.
Qed.

(** No part before position [k] has the property: every part that has
    it starts at [k] or later. *)
Lemma none_before (P : text → text → text → bool) (q : text) (k : nat) :
  forallb (λ n, negb (part_at P q n)) (seq 0 k) = true →
  ∀ pre tok post,
    q = pre ++ tok ++ post → length tok = 4 → P pre tok post = true →
    k ≤ length pre.
Proof.
  intros Hall pre tok post Hq Hl HP.
  destruct (le_lt_dec k (length pre)) as [Hle | Hlt]; [exact Hle |].
  exfalso. rewrite forallb_forall in Hall.
  assert (In (length pre) (seq 0 k)) as Hin by (apply in_seq; lia).
  specialize (Hall _ Hin). unfold part_at in Hall.
  destruct (split_at _ _ _ _ Hq Hl) as (H1 & H2 & H3).
  rewrite <- H1, <- H2, <- H3, HP in Hall. discriminate.
Qed.

End Positions.

(** ** The chain over the object store *)

Section ChainFacts.
Context `{Collaborators}.
Import PyStr.

Lemma bind_ret_l {A B} (a : A) (k : A → M B) : bind (ret a) k = k a.
Proof. unfold bind, ret. destruct (k a). reflexivity. Qed.

Lemma bind_emit {B} (ev : event) (k : unit → M B) :
  bind (emit ev) k = (ev :: fst (k tt), snd (k tt)).
Proof. unfold bind, emit. destruct (k tt). reflexivity. Qed.

(** Every answer a provider returns is a non-empty string. *)
Lemma generate_answer_truthy (p : LLMProvider) (q : text) (c : context)
    (evs : list event) (a : text) :
  generate_answer p q c = (evs, Return a) → truthy a = true.
Proof.
  destruct p as [model host port | |]; simpl.
  - destruct (ollama_generate _ _ _ _ _); simpl; intros [= _ <-]; reflexivity.
  - intros [= _ <-]. reflexivity.
  - intros [= _ <-]. reflexivity.
Qed.

Lemma semantic_answer_truthy (σ : heap) (s p : option loc) (q : text)
    (cs : option ContentStore) (evs : list event) (a : text) :
  SemanticHandler_process σ s p q cs = (evs, Return (Some a)) → truthy a = true.
Proof.
  unfold SemanticHandler_process.
  destruct s as [sl|], p as [pl|]; try discriminate.
  destruct (content_store_truthy cs); [| discriminate].
  unfold get_strategy, get_provider.
  destruct (σ !! sl) as [[st| |]|]; try discriminate.
  rewrite bind_ret_l.
  destruct (σ !! pl) as [[|pr|]|]; try discriminate.
  rewrite bind_ret_l.
  unfold bind at 1.
  destruct (retrieve st q cs) as [evs1 [chunks|e]]; [| discriminate].
  unfold bind.
  destruct (generate_answer pr q (CtxList chunks)) as [evs2 [ans|e]] eqn:Hg;
    [| discriminate].
  simpl. intros [= _ <-]. exact (generate_answer_truthy _ _ _ _ _ Hg).
Qed.

(** The terminal stage yields no answer only when it does not run: one
    of its policies is missing, or the store is no true value. *)
Lemma semantic_none (σ : heap) (s p : option loc) (q : text)
    (cs : option ContentStore) (evs : list event) :
  SemanticHandler_process σ s p q cs = (evs, Return None) →
  evs = [] ∧ (s = None ∨ p = None ∨ content_store_truthy cs = false).
Proof.
  unfold SemanticHandler_process.
  destruct s as [sl|]; [| intros [= <-]; auto].
  destruct p as [pl|]; [| intros [= <-]; auto].
  destruct (content_store_truthy cs); [| intros [= <-]; auto].
  unfold get_strategy, get_provider.
  destruct (σ !! sl) as [[st| |]|]; try discriminate.
  rewrite bind_ret_l.
  destruct (σ !! pl) as [[|pr|]|]; try discriminate.
  rewrite bind_ret_l.
  unfold bind at 1.
  destruct (retrieve st q cs) as [evs1 [chunks|e]]; [| discriminate].
  unfold bind.
  destruct (generate_answer pr q (CtxList chunks)) as [evs2 [ans|e]];
    discriminate.
Qed.

(** One step of [handle] at a live handler object. *)
Lemma handle_step (d : nat) (σ : heap) (self : loc) (h : QueryHandler)
    (q : text) (cs : option ContentStore) :
  σ !! self = Some (ObjHandler h) →
  handle (S d) σ self q cs =
    let! result := _process σ h q cs in
    let pass_on :=
      match successor_of h with
      | Some next => handle d σ next q cs
      | None => ret fallback_message
      end in
    match result with
    | Some r => if truthy r then ret r else pass_on
    | None => pass_on
    end.
Proof.
  intros Hl. cbn [handle]. unfold get_handler. rewrite Hl.
  now rewrite bind_ret_l.
Qed.

Variable bot : CSEChatbot.
Hypothesis Hwf : chain_wf bot.

Lemma ask_id_answer (d : nat) (q a : text) :
  CourseIdHandler_process (_courses bot) q = Some a →
  ask (S d) bot q = ([EvProcess CourseIdHandler_cls], Return a).
Proof.
  intros Hid. unfold ask.
  rewrite (handle_step _ _ _ _ _ _ (wf_head _ Hwf)).
  unfold _process. rewrite bind_emit. cbn [class_of fst snd ret].
  rewrite Hid. unfold CourseIdHandler_process in Hid.
  destruct (search_id q); [| discriminate].
  destruct (find_by_id _ _); [| discriminate].
  injection Hid as <-. reflexivity.
Qed.

Lemma ask_id_none (d : nat) (q : text) :
  CourseIdHandler_process (_courses bot) q = None →
  ask (S d) bot q =
    (EvProcess CourseIdHandler_cls
       :: fst (handle d (objects bot) (_title_handler bot) q (Some (_store bot))),
     snd (handle d (objects bot) (_title_handler bot) q (Some (_store bot)))).
Proof.
  intros Hid. unfold ask.
  rewrite (handle_step _ _ _ _ _ _ (wf_head _ Hwf)).
  unfold _process. rewrite bind_emit. cbn [class_of fst snd ret].
  rewrite Hid. cbn [bind successor_of].
  destruct (handle d _ _ _ _). reflexivity.
Qed.

Lemma title_handle_answer (d : nat) (q a : text) :
  CourseTitleHandler_process (_courses bot) q = Some a →
  handle (S d) (objects bot) (_title_handler bot) q (Some (_store bot))
  = ([EvProcess CourseTitleHandler_cls], Return a).
Proof.
  intros Ht.
  rewrite (handle_step _ _ _ _ _ _ (wf_title _ Hwf)).
  unfold _process. rewrite bind_emit. cbn [class_of fst snd ret].
  rewrite Ht. unfold CourseTitleHandler_process in Ht.
  destruct (find_by_title _ _); [| discriminate].
  injection Ht as <-. reflexivity.
Qed.

Lemma title_handle_none (d : nat) (q : text) :
  CourseTitleHandler_process (_courses bot) q = None →
  handle (S d) (objects bot) (_title_handler bot) q (Some (_store bot))
  = (EvProcess CourseTitleHandler_cls
       :: fst (handle d (objects bot) (_semantic_handler bot) q (Some (_store bot))),
     snd (handle d (objects bot) (_semantic_handler bot) q (Some (_store bot)))).
Proof.
  intros Ht.
  rewrite (handle_step _ _ _ _ _ _ (wf_title _ Hwf)).
  unfold _process. rewrite bind_emit. cbn [class_of fst snd ret].
  rewrite Ht. cbn [bind successor_of].
  destruct (handle d _ _ _ _). reflexivity.
Qed.

Lemma semantic_handle (d : nat) (q : text) :
  handle (S d) (objects bot) (_semantic_handler bot) q (Some (_store bot))
  = (EvProcess SemanticHandler_cls :: fst (semantic_stage bot q),
     match snd (semantic_stage bot q) with
     | Return (Some a) => Return a
     | Return None => Return fallback_message
     | Raise e => Raise e
     end).
Proof.
  rewrite (handle_step _ _ _ _ _ _ (wf_semantic _ Hwf)).
  unfold _process. rewrite bind_emit. cbn [class_of fst snd successor_of].
  fold (semantic_stage bot q).
  destruct (semantic_stage bot q) as [evs [[a|]|e]] eqn:Hs; cbn [bind fst snd].
  - rewrite (semantic_answer_truthy _ _ _ _ _ _ _ Hs). cbn [ret].
    now rewrite app_nil_r.
  - cbn [ret]. now rewrite app_nil_r.
  - reflexivity.
Qed.
End ChainFacts.

(** ** The demonstration controllers are well formed *)

Lemma demo_bot_wf : chain_wf Demo.bot.
Proof. split; try reflexivity; eexists; reflexivity. Qed.

Lemma demo_greek_bot_wf : chain_wf Demo.greek_bot.
Proof. split; try reflexivity; eexists; reflexivity. Qed.

Lemma demo_bot_openai_wf : chain_wf Demo.bot_openai.
Proof. split; try reflexivity; eexists; reflexivity. Qed.

(** ** The routing chain *)

(** C2.  For a well-formed controller and a call depth of at least three,
    [ask] returns the answer of the first stage, in the order identifier,
    title, semantic, whose [_process] yields an answer; every such answer
    is a non-empty string; the stages entered are exactly those up to and
    including the answering one; and when the semantic stage yields no
    answer either, [ask] returns the fixed message of
    [QueryHandler.handle].  That last case needs a store that is no true
    value.  An exception of an external collaborator in the semantic
    stage propagates. *)
Theorem C2_first_answering_stage_wins `{Collaborators}
    (bot : CSEChatbot) (depth : nat) (q : text) :
  chain_wf bot → 3 ≤ depth →
  match CourseIdHandler_process (_courses bot) q with
  | Some a =>
      a ≠ [] ∧ ask depth bot q = ([EvProcess CourseIdHandler_cls], Return a)
  | None =>
      match CourseTitleHandler_process (_courses bot) q with
      | Some a =>
          a ≠ []
          ∧ ask depth bot q
            = ([EvProcess CourseIdHandler_cls; EvProcess CourseTitleHandler_cls],
               Return a)
      | None =>
          let stages :=
            [EvProcess CourseIdHandler_cls; EvProcess CourseTitleHandler_cls;
             EvProcess SemanticHandler_cls] in
          match semantic_stage bot q with
          | (evs, Return (Some a)) =>
              a ≠ [] ∧ ask depth bot q = (stages ++ evs, Return a)
          | (evs, Return None) =>
              store_truthy (_store bot) = false
              ∧ ask depth bot q = (stages ++ evs, Return fallback_message)
          | (evs, Raise e) => ask depth bot q = (stages ++ evs, Raise e)
          end
      end
  end.
Proof.
  intros Hwf Hd.
  destruct depth as [|[|[|d]]]; try lia.
  destruct (CourseIdHandler_process (_courses bot) q) as [a|] eqn:Hid.
  - split; [| now apply ask_id_answer].
    apply CatalogFacts.id_stage_some in Hid as (tok & c & _ & _ & ->).
    apply CatalogFacts.id_answer_truthy.
  - rewrite (ask_id_none _ Hwf _ _ Hid).
    destruct (CourseTitleHandler_process (_courses bot) q) as [a|] eqn:Ht.
    + rewrite (title_handle_answer _ Hwf _ _ _ Ht). split; [| reflexivity].
      unfold CourseTitleHandler_process in Ht.
      destruct (find_by_title _ _); [| discriminate].
      injection Ht as <-. apply CatalogFacts.title_answer_truthy.
    + rewrite (title_handle_none _ Hwf _ _ Ht), (semantic_handle _ Hwf).
      cbn [fst snd]. cbv zeta.
      destruct (semantic_stage bot q) as [evs [[a|]|e]] eqn:Hs; cbn [fst snd app].
      * split; [| reflexivity].
        apply PyStrFacts.truthy_spec. exact (semantic_answer_truthy _ _ _ _ _ _ _ Hs).
      * split; [| reflexivity].
        unfold semantic_stage in Hs.
        apply semantic_none in Hs as [_ [Hn | [Hn | Hn]]];
          [discriminate | discriminate | exact Hn].
      * reflexivity.
Qed.

Lemma C2_witness :
  chain_wf Demo.bot ∧ 3 ≤ 3
  ∧ ask 3 Demo.bot "Which course covers design patterns?"
    = ([EvProcess CourseIdHandler_cls; EvProcess CourseTitleHandler_cls;
        EvProcess SemanticHandler_cls;
        EvFindRelevantChunks "Which course covers design patterns?" 3;
        EvGenerate "Which course covers design patterns?"
          ("Software Design Patterns: Reusable object-oriented designs"
             ++ newline ++ "Data Structures: Lists, trees and graphs")],
       Return (txt "[Ollama] generated text")).
Proof.
  split; [exact demo_bot_wf |]. split; [lia |].
  pose proof (C2_first_answering_stage_wins Demo.bot 3
                "Which course covers design patterns?" demo_bot_wf (le_n 3)) as Hc.
  vm_compute in Hc. destruct Hc as [_ Hc]. vm_compute. exact Hc.
Defined.

(** ** The identifier stage *)




(** C9, as amended.  The identifier stage looks up the leftmost id-like
    token of the query (a word-bounded run of four decimal digits that
    starts with one of the ASCII digits 1 to 4) and nothing else: its
    result is the answer for the first catalog course with that id, and
    when no course has that id the stage yields no answer, whatever other
    id-like tokens the query holds. *)
Theorem C9_leftmost_token_only `{Unicode} (courses : list Course) (q tok : text) :
  Spec.leftmost_id_token q tok →
  CourseIdHandler_process courses q = option_map id_answer (find_by_id tok courses)
  ∧ (∀ c, Spec.first_with_id tok courses c →
          CourseIdHandler_process courses q = Some (id_answer c))
  ∧ ((∀ c, c ∈ courses → id c ≠ tok) → CourseIdHandler_process courses q = None).
Proof.
  intros Htok. unfold CourseIdHandler_process.
  rewrite (IdScan.leftmost_search_id _ _ Htok).
  split; [| split].
  - destruct (find_by_id tok courses); reflexivity.
  - intros c Hc. now rewrite (proj2 (CatalogFacts.find_by_id_some _ _ _) Hc).
  - intros Hno. now rewrite (proj2 (CatalogFacts.find_by_id_none _ _) Hno).
Qed.

Lemma C9_witness :
  Spec.leftmost_id_token (H := Demo.unicode_tables) "compare 1000 with 4361" "1000"
  ∧ find_by_id "4361" Demo.catalog = Some Demo.course_4361
  ∧ CourseIdHandler_process (H := Demo.unicode_tables) Demo.catalog
      "compare 1000 with 4361" = None.
Proof.
  assert (Ht : Spec.leftmost_id_token (H := Demo.unicode_tables)
                 "compare 1000 with 4361" "1000")
    by (apply IdScan.search_id_some; reflexivity).
  split; [exact Ht |]. split; [reflexivity |].
  exact (proj1 (C9_leftmost_token_only Demo.catalog _ _ Ht)).
Defined.

(** C9 as stated fails, whichever digits a "4-digit token in the valid
    range" is made of.  With ASCII digits: in [1२३४ 4361 2320] the first
    such token is [4361], the id of a catalog course, yet the stage looks
    up [1२३४] and yields no answer.  With the decimal digits of any
    script: in [１234 4361] the first such token is [１234], which is no
    course's id, yet the stage does not fall through: it answers for
    [4361]. *)
Lemma C9_counterexample :
  (Spec.leftmost (Spec.ascii_range_token (H := Demo.unicode_tables))
     (Demo.mixed_1234 ++ " 4361 2320") "4361"
   ∧ Spec.ascii_range_token (H := Demo.unicode_tables)
       (Demo.mixed_1234 ++ " 4361 ") "2320" []
   ∧ Spec.first_with_id "4361" Demo.catalog Demo.course_4361
   ∧ search_id (H := Demo.unicode_tables) (Demo.mixed_1234 ++ " 4361 2320")
     = Some Demo.mixed_1234
   ∧ CourseIdHandler_process (H := Demo.unicode_tables) Demo.catalog
       (Demo.mixed_1234 ++ " 4361 2320") = None)
  ∧ (Spec.leftmost (Spec.decimal_range_token (H := Demo.unicode_tables))
       (Demo.fullwidth_1234 ++ " 4361") Demo.fullwidth_1234
     ∧ Spec.decimal_range_token (H := Demo.unicode_tables)
         (Demo.fullwidth_1234 ++ " ") "4361" []
     ∧ (∀ c, c ∈ Demo.catalog → id c ≠ Demo.fullwidth_1234)
     ∧ CourseIdHandler_process (H := Demo.unicode_tables) Demo.catalog
         (Demo.fullwidth_1234 ++ " 4361")
       = Some (id_answer Demo.course_4361)).
Proof.
  split; [split; [| split; [| split; [| split]]] | split; [| split; [| split]]].
  - exists (Demo.mixed_1234 ++ " "), (txt " 2320").
    split; [reflexivity |]. split; [repeat split; vm_compute; reflexivity |].
    intros pre' tok' post' Hq (Ha & Hr & Hb).
    apply (Positions.none_before
             (λ pre tok post,
                Spec.four_ascii_digits tok
                && Spec.in_valid_range (H := Demo.unicode_tables) tok
                && Spec.word_bounded (H := Demo.unicode_tables) pre post)
             (Demo.mixed_1234 ++ " 4361 2320") 5 eq_refl pre' tok' post' Hq).
    + unfold Spec.four_ascii_digits in Ha.
      apply andb_true_iff in Ha as [Hl _]. now apply Nat.eqb_eq in Hl.
    + now rewrite Ha, Hr, Hb.
  - repeat split; vm_compute; reflexivity.
  - apply CatalogFacts.find_by_id_some. reflexivity.
  - reflexivity.
  - reflexivity.
  - exists [], (txt " 4361").
    split; [reflexivity |]. split; [split; vm_compute; reflexivity |].
    intros; simpl; lia.
  - split; vm_compute; reflexivity.
  - intros c Hc.
    apply elem_of_cons in Hc as [-> | Hc]; [discriminate |].
    apply elem_of_cons in Hc as [-> | Hc]; [discriminate | inversion Hc].
  - reflexivity.
Qed.

(** C10, as amended.  The identifier stage extracts a token exactly when
    the query holds an id-like token: a word-bounded run of exactly four
    decimal digits, of any script, the first of which is one of the ASCII
    digits 1, 2, 3 and 4.  The token it extracts is the leftmost one, and
    its number lies in 1000..4999; among runs of four ASCII digits the
    id-like tokens are exactly the word-bounded ones with a number in
    1000..4999; an id-like token has no digit next to it, so it is never
    part of a longer run of digits; a query without an id-like token
    reaches no catalog, and an answer of the stage is the answer for the
    first course whose id is the leftmost id-like token. *)
Theorem C10_id_range `{Unicode} (q : text) :
  ((∃ tok, search_id q = Some tok)
   ↔ ∃ pre tok post, q = pre ++ tok ++ post ∧ Spec.id_token pre tok post)
  ∧ (∀ tok, search_id q = Some tok →
       Spec.leftmost_id_token q tok
       ∧ Spec.four_digits tok = true ∧ (1000 ≤ Spec.int_of tok ≤ 4999)%Z)
  ∧ (∀ pre tok post,
       Spec.four_ascii_digits tok = true →
       Spec.id_token pre tok post
       ↔ Spec.in_valid_range tok = true ∧ Spec.word_bounded pre post = true)
  ∧ (∀ pre tok post,
       Spec.id_token pre tok post →
       (∀ c, last pre = Some c → is_decimal c = false)
       ∧ (∀ c, head post = Some c → is_decimal c = false))
  ∧ (∀ courses,
       (¬ ∃ pre tok post, q = pre ++ tok ++ post ∧ Spec.id_token pre tok post) →
       CourseIdHandler_process courses q = None)
  ∧ (∀ courses a,
       CourseIdHandler_process courses q = Some a →
       ∃ tok c,
         Spec.leftmost_id_token q tok ∧ Spec.first_with_id tok courses c
         ∧ a = id_answer c)
  ∧ search_id "0999" = None ∧ search_id "5000" = None
  ∧ search_id "12345" = None.
Proof.
  split; [| split; [| split; [| split; [| split; [| split]]]]].
  - split.
    + intros [tok Hs]. apply IdScan.search_id_some in Hs as (pre & post & Hq & Ht & _).
      eauto.
    + intros (pre & tok & post & Hq & Ht).
      destruct (search_id q) as [tok'|] eqn:Hs; [eauto |].
      exfalso. exact (IdScan.search_id_none _ Hs _ _ _ Hq Ht).
  - intros tok Hs. apply IdScan.search_id_some in Hs.
    split; [exact Hs |].
    destruct Hs as (pre & post & _ & (Hf & Hl & _) & _).
    split; [exact Hf |]. now apply IdRange.leading_digit_range.
  - intros pre tok post Ha. unfold Spec.id_token, Spec.in_valid_range.
    pose proof (IdRange.four_ascii_digits_decimal _ Ha) as Hf.
    rewrite (IdRange.ascii_leading_digit_range _ Ha), Hf.
    rewrite !andb_true_iff, !Z.leb_le. tauto.
  - intros pre tok post (_ & _ & Hb). unfold Spec.word_bounded in Hb.
    apply andb_true_iff in Hb as [Hpre Hpost].
    split; intros c Hc; rewrite Hc in *; cbn [is_word_at] in *;
      destruct (is_decimal c) eqn:Hd; try reflexivity;
      apply decimal_is_word in Hd; rewrite Hd in *; discriminate.
  - intros courses Hno. unfold CourseIdHandler_process.
    destruct (search_id q) as [tok|] eqn:Hs; [| reflexivity].
    exfalso. apply Hno.
    apply IdScan.search_id_some in Hs as (pre & post & Hq & Ht & _). eauto.
  - intros courses a Ha.
    apply CatalogFacts.id_stage_some in Ha as (tok & c & Hs & Hf & ->).
    exists tok, c. split; [now apply IdScan.search_id_some |].
    split; [now apply CatalogFacts.find_by_id_some | reflexivity].
  - assert (Hw : ∀ c, (48 ≤ c ≤ 57)%N → is_word c = true)
      by (intros c Hc; apply decimal_is_word, (ascii_digit c Hc)).
    repeat split.
    + change (txt "0999") with [48; 57; 57; 57]%N.
      unfold search_id. cbn [search_id_from id_pattern_here].
      unfold is_1_to_4. cbn [N.leb N.compare Pos.compare Pos.compare_cont andb].
      now rewrite !andb_false_r.
    + change (txt "5000") with [53; 48; 48; 48]%N.
      unfold search_id. cbn [search_id_from id_pattern_here].
      unfold is_1_to_4. cbn [N.leb N.compare Pos.compare Pos.compare_cont andb].
      now rewrite !andb_false_r.
    + change (txt "12345") with [49; 50; 51; 52; 53]%N.
      unfold search_id. cbn [search_id_from id_pattern_here head].
      unfold boundary. cbn [is_word_at].
      rewrite !Hw by lia. cbn [xorb]. now rewrite !andb_false_r.
Qed.

(** C10 as stated fails, whichever digits a "run of four digits" is made
    of.  With ASCII digits: [1२३४] holds no run of four of them, yet the
    stage extracts it and answers for a course with that id.  With the
    decimal digits of any script: [１234] is a word-bounded run of four,
    its number is 1234 and its first digit is a one, yet the stage
    extracts nothing and reaches no catalog. *)
Lemma C10_counterexample :
  (search_id (H := Demo.unicode_tables) Demo.mixed_1234 = Some Demo.mixed_1234
   ∧ (∀ pre tok post,
        Demo.mixed_1234 = pre ++ tok ++ post → Spec.four_ascii_digits tok = false)
   ∧ CourseIdHandler_process (H := Demo.unicode_tables)
       [mkCourse Demo.mixed_1234 "Seminar" "Readings"] Demo.mixed_1234
     = Some (id_answer (mkCourse Demo.mixed_1234 "Seminar" "Readings")))
  ∧ (Spec.decimal_range_token (H := Demo.unicode_tables) [] Demo.fullwidth_1234 []
     ∧ Spec.int_of (H := Demo.unicode_tables) Demo.fullwidth_1234 = 1234%Z
     ∧ decimal_value (Unicode := Demo.unicode_tables) 65297 = 1%Z
     ∧ search_id (H := Demo.unicode_tables) Demo.fullwidth_1234 = None
     ∧ ∀ courses,
         CourseIdHandler_process (H := Demo.unicode_tables) courses Demo.fullwidth_1234
         = None).
Proof.
  split; [split; [| split] | split; [| split; [| split; [| split]]]].
  - reflexivity.
  - intros pre tok post Hq.
    destruct (Spec.four_ascii_digits tok) eqn:Ha; [| reflexivity]. exfalso.
    assert (length tok = 4) as Hl.
    { unfold Spec.four_ascii_digits in Ha.
      apply andb_true_iff in Ha as [Hl _]. now apply Nat.eqb_eq in Hl. }
    pose proof (Positions.none_before (λ _ tok _, Spec.four_ascii_digits tok)
                  Demo.mixed_1234 1 eq_refl pre tok post Hq Hl Ha) as Hpre.
    apply (f_equal length) in Hq. rewrite !length_app, Hl in Hq.
    cbn [Demo.mixed_1234 length] in Hq. lia.
  - reflexivity.
  - split; vm_compute; reflexivity.
  - reflexivity.
  - reflexivity.
  - reflexivity.
  - intros courses. reflexivity.
Qed.

(** ** The title stage *)



(** ** Hot swap of the strategy and the provider *)

Section Swap.
Context `{Collaborators}.

Lemma chain_wf_consistent (bot : CSEChatbot) : chain_wf bot → consistent bot.
Proof.
  intros Hwf. unfold consistent, semantic_strategy, semantic_provider.
  now rewrite (wf_semantic _ Hwf).
Qed.

(** Allocating an object and updating the terminal handler leaves every
    other object of the store as it was. *)
Lemma lookup_after_swap (σ : heap) (sem l : loc) (x o : object) :
  l < length σ → l ≠ sem → (<[sem := x]> (σ ++ [o])) !! l = σ !! l.
Proof.
  intros Hl Hne. rewrite list_lookup_insert_ne by congruence.
  now apply lookup_app_l.
Qed.

Lemma lookup_new_after_swap (σ : heap) (sem : loc) (x o : object) :
  sem < length σ → (<[sem := x]> (σ ++ [o])) !! length σ = Some o.
Proof.
  intros Hs. rewrite list_lookup_insert_ne by lia.
  now apply list_lookup_middle.
Qed.

Lemma lookup_sem_after_swap (σ : heap) (sem : loc) (x o : object) :
  sem < length σ → (<[sem := x]> (σ ++ [o])) !! sem = Some x.
Proof.
  intros Hs. apply list_lookup_insert_eq. rewrite length_app. simpl. lia.
Qed.

Variable bot : CSEChatbot.
Hypothesis Hwf : chain_wf bot.

Lemma semantic_live : _semantic_handler bot < length (objects bot).
Proof. exact (lookup_lt_Some _ _ _ (wf_semantic _ Hwf)). Qed.

Lemma head_not_semantic : _handler_chain bot ≠ _semantic_handler bot.
Proof.
  intros Heq. pose proof (wf_head _ Hwf) as Hh.
  rewrite Heq, (wf_semantic _ Hwf) in Hh. discriminate.
Qed.

Lemma title_not_semantic : _title_handler bot ≠ _semantic_handler bot.
Proof.
  intros Heq. pose proof (wf_title _ Hwf) as Hh.
  rewrite Heq, (wf_semantic _ Hwf) in Hh. discriminate.
Qed.

Lemma strategy_not_semantic : strategy bot ≠ _semantic_handler bot.
Proof.
  intros Heq. destruct (wf_strategy _ Hwf) as [s Hs].
  rewrite Heq, (wf_semantic _ Hwf) in Hs. discriminate.
Qed.

Lemma provider_not_semantic : provider bot ≠ _semantic_handler bot.
Proof.
  intros Heq. destruct (wf_provider _ Hwf) as [p Hp].
  rewrite Heq, (wf_semantic _ Hwf) in Hp. discriminate.
Qed.

Lemma set_strategy_known (name : text) (s : RetrievalStrategy) :
  table_lookup name strategies = Some s →
  set_strategy bot name
  = ([EvPrint ("Strategy changed to: " ++ name)], Return (strategy_swapped bot s)).
Proof.
  intros Hn. unfold set_strategy. rewrite Hn. unfold alloc, set_handler_strategy.
  rewrite (lookup_app_l _ _ _ semantic_live), (wf_semantic _ Hwf).
  reflexivity.
Qed.

Lemma set_provider_known (name : text) (p : LLMProvider) :
  table_lookup name providers = Some p →
  set_provider bot name
  = ([EvPrint ("Provider changed to: " ++ name)], Return (provider_swapped bot p)).
Proof.
  intros Hn. unfold set_provider. rewrite Hn. unfold alloc, set_handler_provider.
  rewrite (lookup_app_l _ _ _ semantic_live), (wf_semantic _ Hwf).
  reflexivity.
Qed.

Lemma strategy_swapped_wf (s : RetrievalStrategy) : chain_wf (strategy_swapped bot s).
Proof.
  pose proof semantic_live as Hsem.
  split; cbn [strategy_swapped with_strategy objects _handler_chain _title_handler
              _semantic_handler _courses strategy provider].
  - rewrite lookup_after_swap;
      [exact (wf_head _ Hwf) | exact (lookup_lt_Some _ _ _ (wf_head _ Hwf))
       | exact head_not_semantic].
  - rewrite lookup_after_swap;
      [exact (wf_title _ Hwf) | exact (lookup_lt_Some _ _ _ (wf_title _ Hwf))
       | exact title_not_semantic].
  - now apply lookup_sem_after_swap.
  - exists s. now apply lookup_new_after_swap.
  - destruct (wf_provider _ Hwf) as [p Hp]. exists p.
    rewrite lookup_after_swap;
      [exact Hp | exact (lookup_lt_Some _ _ _ Hp) | exact provider_not_semantic].
Qed.

Lemma provider_swapped_wf (p : LLMProvider) : chain_wf (provider_swapped bot p).
Proof.
  pose proof semantic_live as Hsem.
  split; cbn [provider_swapped with_provider objects _handler_chain _title_handler
              _semantic_handler _courses strategy provider].
  - rewrite lookup_after_swap;
      [exact (wf_head _ Hwf) | exact (lookup_lt_Some _ _ _ (wf_head _ Hwf))
       | exact head_not_semantic].
  - rewrite lookup_after_swap;
      [exact (wf_title _ Hwf) | exact (lookup_lt_Some _ _ _ (wf_title _ Hwf))
       | exact title_not_semantic].
  - now apply lookup_sem_after_swap.
  - destruct (wf_strategy _ Hwf) as [s Hs]. exists s.
    rewrite lookup_after_swap;
      [exact Hs | exact (lookup_lt_Some _ _ _ Hs) | exact strategy_not_semantic].
  - exists p. now apply lookup_new_after_swap.
Qed.
End Swap.

(** Construction establishes the invariant. *)
Lemma construct_wf `{Collaborators} (courses : list Course) (evs : list event)
    (bot : CSEChatbot) :
  construct courses = (evs, Return bot) → chain_wf bot.
Proof.
  unfold construct, _init_rag_components, _index_courses, print, emit, call, bind, ret.
  destruct (store_chunks _ _) as [store|e]; [| discriminate].
  intros [= _ <-]. split; try reflexivity; eexists; reflexivity.
Qed.

(** Every operation keeps the controller well formed. *)
Lemma apply_operation_wf `{Collaborators} (bot : CSEChatbot) :
  chain_wf bot →
  ∀ op evs bot', apply_operation op bot = (evs, Return bot') → chain_wf bot'.
Proof.
  intros Hwf op evs bot' Hop.
  destruct op as [n | n | d q]; cbn [apply_operation] in Hop.
  - destruct (table_lookup n strategies) as [s|] eqn:Hn.
    + rewrite (set_strategy_known _ Hwf _ _ Hn) in Hop.
      injection Hop as _ <-. now apply strategy_swapped_wf.
    + unfold set_strategy in Hop. rewrite Hn in Hop.
      injection Hop as _ <-. exact Hwf.
  - destruct (table_lookup n providers) as [p|] eqn:Hn.
    + rewrite (set_provider_known _ Hwf _ _ Hn) in Hop.
      injection Hop as _ <-. now apply provider_swapped_wf.
    + unfold set_provider in Hop. rewrite Hn in Hop.
      injection Hop as _ <-. exact Hwf.
  - unfold bind in Hop. destruct (ask d bot q) as [evs0 [a|e]]; [| discriminate].
    cbn in Hop. injection Hop as _ <-. exact Hwf.
Qed.

(** Every controller a caller can hold is well formed. *)
Lemma reachable_wf `{Collaborators} (bot : CSEChatbot) : reachable bot → chain_wf bot.
Proof.
  induction 1 as [courses evs bot Hc | op evs bot bot' _ IH Hop].
  - exact (construct_wf _ _ _ Hc).
  - exact (apply_operation_wf _ IH _ _ _ Hop).
Qed.

(** The names the two tables know. *)
Lemma known_strategy_names (name : text) :
  is_Some (table_lookup name strategies)
  ↔ name ∈ [txt "top_n"; txt "window"; txt "document"; txt "hierarchical"].
Proof.
  unfold strategies. cbn [table_lookup]. unfold PyStr.eqb.
  rewrite !elem_of_cons, elem_of_nil.
  repeat case_bool_decide;
    (split; [intros [x Hx]; try discriminate; auto
            | intros Hin; try (eexists; reflexivity); exfalso; intuition congruence]).
Qed.

Lemma known_provider_names (name : text) :
  is_Some (table_lookup name providers)
  ↔ name ∈ [txt "ollama"; txt "openai"; txt "gemini"].
Proof.
  unfold providers. cbn [table_lookup]. unfold PyStr.eqb.
  rewrite !elem_of_cons, elem_of_nil.
  repeat case_bool_decide;
    (split; [intros [x Hx]; try discriminate; auto
            | intros Hin; try (eexists; reflexivity); exfalso; intuition congruence]).
Qed.

Lemma reachable_consistent `{Collaborators} (bot : CSEChatbot) :
  reachable bot → consistent bot.
Proof. intros Hr. apply chain_wf_consistent, reachable_wf, Hr. Qed.

(** C4. On a well-formed controller, [set_strategy] with a known name
    allocates a new strategy object of the named class and makes both the
    controller's [strategy] and the terminal handler's [strategy] refer to
    it, leaving the provider references and every other object as they
    were; with an unknown name it prints a rejection and returns the
    controller unchanged.  [set_provider] does the same for the provider.
    The known names are those of the two tables, compared exactly.
    Every operation (either swap, or [ask]) keeps the controller well
    formed, so that the controller and the terminal handler always refer
    to the same strategy object and the same provider object. *)
Theorem C4_swap_updates_both_references `{Collaborators}
    (bot : CSEChatbot) (name : text) :
  chain_wf bot →
  match table_lookup name strategies with
  | Some s =>
      ∃ bot',
        set_strategy bot name
        = ([EvPrint ("Strategy changed to: " ++ name)], Return bot')
        ∧ objects bot !! strategy bot' = None
        ∧ objects bot' !! strategy bot' = Some (ObjStrategy s)
        ∧ semantic_strategy bot' = Some (strategy bot')
        ∧ provider bot' = provider bot
        ∧ semantic_provider bot' = Some (provider bot)
        ∧ ∀ l, l < length (objects bot) → l ≠ _semantic_handler bot →
               objects bot' !! l = objects bot !! l
  | None =>
      set_strategy bot name = ([EvPrint ("Unknown strategy: " ++ name)], Return bot)
  end
  ∧ match table_lookup name providers with
    | Some p =>
        ∃ bot',
          set_provider bot name
          = ([EvPrint ("Provider changed to: " ++ name)], Return bot')
          ∧ objects bot !! provider bot' = None
          ∧ objects bot' !! provider bot' = Some (ObjProvider p)
          ∧ semantic_provider bot' = Some (provider bot')
          ∧ strategy bot' = strategy bot
          ∧ semantic_strategy bot' = Some (strategy bot)
          ∧ ∀ l, l < length (objects bot) → l ≠ _semantic_handler bot →
                 objects bot' !! l = objects bot !! l
    | None =>
        set_provider bot name = ([EvPrint ("Unknown provider: " ++ name)], Return bot)
    end
  ∧ (is_Some (table_lookup name strategies)
     ↔ name ∈ [txt "top_n"; txt "window"; txt "document"; txt "hierarchical"])
  ∧ (is_Some (table_lookup name providers)
     ↔ name ∈ [txt "ollama"; txt "openai"; txt "gemini"])
  ∧ consistent bot
  ∧ ∀ op evs bot',
      apply_operation op bot = (evs, Return bot') → chain_wf bot' ∧ consistent bot'.
Proof.
  intros Hwf. pose proof (semantic_live _ Hwf) as Hsem.
  split; [| split; [| split; [apply known_strategy_names
                             | split; [apply known_provider_names | split]]]].
  - destruct (table_lookup name strategies) as [s|] eqn:Hn.
    + exists (strategy_swapped bot s).
      split; [now apply set_strategy_known |].
      pose proof (chain_wf_consistent _ (strategy_swapped_wf _ Hwf s)) as [Hs Hp].
      split; [now apply lookup_ge_None |].
      split; [now apply lookup_new_after_swap |].
      split; [exact Hs |]. split; [reflexivity |]. split; [exact Hp |].
      intros l Hl Hne. now apply lookup_after_swap.
    + unfold set_strategy. now rewrite Hn.
  - destruct (table_lookup name providers) as [p|] eqn:Hn.
    + exists (provider_swapped bot p).
      split; [now apply set_provider_known |].
      pose proof (chain_wf_consistent _ (provider_swapped_wf _ Hwf p)) as [Hs Hp].
      split; [now apply lookup_ge_None |].
      split; [now apply lookup_new_after_swap |].
      split; [exact Hp |]. split; [reflexivity |]. split; [exact Hs |].
      intros l Hl Hne. now apply lookup_after_swap.
    + unfold set_provider. now rewrite Hn.
  - now apply chain_wf_consistent.
  - intros op evs bot' Hop.
    pose proof (apply_operation_wf _ Hwf _ _ _ Hop) as Hwf'.
    split; [exact Hwf' | now apply chain_wf_consistent].
Qed.

Lemma C4_witness :
  chain_wf Demo.bot
  ∧ set_provider Demo.bot "openai"
    = ([EvPrint "Provider changed to: openai"], Return Demo.bot_openai)
  ∧ set_provider Demo.bot "foo" = ([EvPrint "Unknown provider: foo"], Return Demo.bot)
  ∧ set_strategy Demo.bot "foo" = ([EvPrint "Unknown strategy: foo"], Return Demo.bot)
  ∧ consistent Demo.bot.
Proof.
  pose proof (C4_swap_updates_both_references Demo.bot "foo" demo_bot_wf)
    as (Hs & Hp & _ & _ & Hc & _).
  split; [exact demo_bot_wf |]. split; [reflexivity |].
  split; [exact Hp |]. split; [exact Hs |]. exact Hc.
Defined.

(** ** Loading the catalog *)

Section Loader.
Context `{Collaborators}.

Lemma construct_outcome (courses : list Course) :
  snd (construct courses)
  = match store_chunks new_store (map course_chunk courses) with
    | Return store => Return (init_policies courses store)
    | Raise e => Raise e
    end.
Proof.
  unfold construct, _init_rag_components, _index_courses, print, emit, call, bind, ret.
  destruct (store_chunks _ _); reflexivity.
Qed.

(** A line that is blank once stripped stops the loader with the
    decoder's exception, whatever the decoder makes of other lines. *)
Lemma blank_first_line_raises (path line : text) (rest : list text) :
  open_lines path = Return (line :: rest) → PyStr.strip line = [] →
  _load_courses path = ([], Raise JSONDecodeError)
  ∧ __init__ path = ([], Raise JSONDecodeError).
Proof.
  intros Ho Hb.
  assert (_load_courses path = ([], Raise JSONDecodeError)) as Hl.
  { unfold _load_courses. rewrite Ho. cbn [load_loop].
    unfold parse_course. rewrite Hb. reflexivity. }
  split; [exact Hl |]. unfold __init__. now rewrite Hl.
Qed.
End Loader.

(** C5, as amended.  When the catalog source is missing ([open] raises
    [FileNotFoundError]), the loader returns the empty catalog after
    printing one warning line and raises nothing; [__init__] goes on to
    build the controller over the empty catalog, on which neither the
    identifier stage nor the title stage answers any query. *)
Theorem C5_missing_source_is_soft `{Collaborators} (path : text) :
  open_lines path = Raise FileNotFoundError →
  _load_courses path = ([EvPrint ("Warning: " ++ path ++ " not found.")], Return [])
  ∧ __init__ path
    = (EvPrint ("Warning: " ++ path ++ " not found.") :: fst (construct []),
       snd (construct []))
  ∧ snd (__init__ path)
    = match store_chunks new_store [] with
      | Return store => Return (init_policies [] store)
      | Raise e => Raise e
      end
  ∧ ∀ evs bot,
      __init__ path = (evs, Return bot) →
      chain_wf bot ∧ _courses bot = []
      ∧ ∀ q, CourseIdHandler_process (_courses bot) q = None
             ∧ CourseTitleHandler_process (_courses bot) q = None.
Proof.
  intros Ho.
  assert (_load_courses path
          = ([EvPrint ("Warning: " ++ path ++ " not found.")], Return [])) as Hl.
  { unfold _load_courses. rewrite Ho. reflexivity. }
  assert (__init__ path
          = (EvPrint ("Warning: " ++ path ++ " not found.") :: fst (construct []),
             snd (construct []))) as Hi.
  { unfold __init__. rewrite Hl. unfold bind. destruct (construct []). reflexivity. }
  split; [exact Hl |]. split; [exact Hi |]. split.
  - rewrite Hi. cbn [snd]. apply (construct_outcome []).
  - intros evs bot Hb. rewrite Hi in Hb.
    assert (construct [] = (fst (construct []), Return bot)) as Hc.
    { destruct (construct []) as [evs0 r]. cbn [fst snd] in *. congruence. }
    pose proof (construct_wf _ _ _ Hc) as Hwf.
    assert (_courses bot = []) as Hcs.
    { pose proof (construct_outcome []) as Ho'. rewrite Hc in Ho'. cbn [snd] in Ho'.
      destruct (store_chunks _ _); [| discriminate].
      injection Ho' as ->. reflexivity. }
    split; [exact Hwf |]. split; [exact Hcs |].
    intros q. rewrite Hcs. unfold CourseIdHandler_process, CourseTitleHandler_process.
    split; [destruct (search_id q) |]; reflexivity.
Qed.

Lemma C5_witness :
  open_lines (Collaborators := Demo.collaborators) "courses.jsonl" = Raise FileNotFoundError
  ∧ _load_courses (H := Demo.collaborators) "courses.jsonl"
    = ([EvPrint "Warning: courses.jsonl not found."], Return []).
Proof.
  split; [reflexivity |].
  exact (proj1 (C5_missing_source_is_soft (H := Demo.collaborators) "courses.jsonl" eq_refl)).
Defined.

(** C5 as stated fails on a malformed source: the file exists and its only
    line is blank; the decoder's exception leaves the loader and
    [__init__], so no catalog is returned and no controller is built. *)
Lemma C5_counterexample :
  open_lines (Collaborators := Demo.collaborators) Demo.blank_file = Return [newline]
  ∧ PyStr.strip (H := Demo.unicode_tables) newline = []
  ∧ _load_courses (H := Demo.collaborators) Demo.blank_file = ([], Raise JSONDecodeError)
  ∧ __init__ (H := Demo.collaborators) Demo.blank_file = ([], Raise JSONDecodeError).
Proof. repeat split; reflexivity. Qed.

(** ** Retrieval strategies *)

(** C6. On a store, the window and the hierarchical strategies perform
    exactly one lookup of the 3 most similar chunks and return its result
    as it is, as the top-N strategy with N = 3 does; the document strategy
    performs exactly one lookup of the 5 most similar chunks.  The window
    size plays no part. *)
Theorem C6_strategies_degrade_to_top_k `{Collaborators} (q : text) :
  (∀ (cs : ContentStore) (window_size : Z),
      retrieve (WindowStrategy window_size) q (Some cs)
      = ([EvFindRelevantChunks q 3], find_relevant_chunks cs q 3))
  ∧ (∀ cs : ContentStore,
      retrieve HierarchicalStrategy q (Some cs)
      = ([EvFindRelevantChunks q 3], find_relevant_chunks cs q 3))
  ∧ (∀ cs : ContentStore,
      retrieve DocumentStrategy q (Some cs)
      = ([EvFindRelevantChunks q 5], find_relevant_chunks cs q 5))
  ∧ (∀ (store : option ContentStore) (window_size : Z),
      retrieve (WindowStrategy window_size) q store = retrieve (TopNStrategy 3) q store)
  ∧ (∀ store : option ContentStore,
      retrieve HierarchicalStrategy q store = retrieve (TopNStrategy 3) q store)
  ∧ (∀ store : option ContentStore,
      retrieve DocumentStrategy q store = retrieve (TopNStrategy 5) q store).
Proof. repeat split; reflexivity. Qed.

(** C8. Without a store ([None]), every strategy returns the empty list,
    makes no lookup and raises nothing. *)
Theorem C8_null_store_gives_empty `{Collaborators} (s : RetrievalStrategy) (q : text) :
  retrieve s q None = ([], Return []).
Proof. destruct s; reflexivity. Qed.

(** ** Simulated providers *)

(** C7. The OpenAI and Gemini providers call no collaborator and raise
    nothing: their answer is the template, led by the backend tag, filled
    with the question and with a preview of the context, and it is the
    same for any two contexts with the same truth value and the same
    [str].  For a truthy context the preview is the first 100 characters of
    its [str] (all of it when shorter); for a falsy one, the empty list
    included, it is the text "No context". *)
Theorem C7_simulated_providers `{Collaborators} (question : text) (c : context) :
  generate_answer OpenAIProvider question c
  = ([], Return ("[OpenAI] Answer for '" ++ question ++ "' based on: "
                   ++ context_preview c ++ "..."))
  ∧ generate_answer GeminiProvider question c
    = ([], Return ("[Gemini] Answer for '" ++ question ++ "' based on: "
                     ++ context_preview c ++ "..."))
  ∧ PyStr.startswith "[OpenAI]" (OpenAIProvider_generate_answer question c) = true
  ∧ PyStr.startswith "[Gemini]" (GeminiProvider_generate_answer question c) = true
  ∧ (if context_truthy c
     then context_preview c = take 100 (context_str c)
          ∧ length (context_preview c) ≤ 100
          ∧ ∃ rest, context_str c = context_preview c ++ rest
     else context_preview c = txt "No context")
  ∧ (∀ c', context_truthy c' = context_truthy c → context_str c' = context_str c →
           generate_answer OpenAIProvider question c'
           = generate_answer OpenAIProvider question c
           ∧ generate_answer GeminiProvider question c'
             = generate_answer GeminiProvider question c)
  ∧ context_truthy (CtxList []) = false
  ∧ generate_answer OpenAIProvider question (CtxList [])
    = ([], Return ("[OpenAI] Answer for '" ++ question ++ "' based on: No context..."))
  ∧ generate_answer GeminiProvider question (CtxList [])
    = ([], Return ("[Gemini] Answer for '" ++ question ++ "' based on: No context...")).
Proof.
  split; [reflexivity |]. split; [reflexivity |].
  split; [reflexivity |]. split; [reflexivity |].
  split; [| split; [| repeat split]].
  - unfold context_preview. destruct (context_truthy c); [| reflexivity].
    split; [reflexivity |]. split; [rewrite length_take; lia |].
    exists (drop 100 (context_str c)). now rewrite take_drop.
  - intros c' Ht Hs. cbn [generate_answer].
    unfold OpenAIProvider_generate_answer, GeminiProvider_generate_answer,
      context_preview.
    rewrite Ht, Hs. split; reflexivity.
Qed.

(** * Further properties of the sources *)

(** ** The chain with any store argument *)

Section ChainAnyStore.
Context `{Collaborators}.
Import PyStr.

(** The three stages as nested calls of [handle], for the store argument
    the caller passes ([None] is the default of [handle]). *)
Lemma handle_chain (bot : CSEChatbot) (d : nat) (q : text)
    (cs : option ContentStore) :
  chain_wf bot →
  handle (S (S (S d))) (objects bot) (_handler_chain bot) q cs
  = match CourseIdHandler_process (_courses bot) q with
    | Some a => ([EvProcess CourseIdHandler_cls], Return a)
    | None =>
        match CourseTitleHandler_process (_courses bot) q with
        | Some a =>
            ([EvProcess CourseIdHandler_cls; EvProcess CourseTitleHandler_cls], Return a)
        | None =>
            let m := SemanticHandler_process (objects bot) (Some (strategy bot))
                       (Some (provider bot)) q cs in
            (EvProcess CourseIdHandler_cls :: EvProcess CourseTitleHandler_cls
               :: EvProcess SemanticHandler_cls :: fst m,
             match snd m with
             | Return (Some a) => Return a
             | Return None => Return fallback_message
             | Raise e => Raise e
             end)
        end
    end.
Proof.
  intros Hwf.
  rewrite (handle_step _ _ _ _ _ _ (wf_head _ Hwf)).
  unfold _process at 1. rewrite bind_emit. cbn [class_of fst snd ret successor_of].
  destruct (CourseIdHandler_process (_courses bot) q) as [a|] eqn:Hid.
  { unfold CourseIdHandler_process in Hid.
    destruct (search_id q); [| discriminate].
    destruct (find_by_id _ _); [| discriminate].
    injection Hid as <-. reflexivity. }
  cbn [bind].
  rewrite (handle_step _ _ _ _ _ _ (wf_title _ Hwf)).
  unfold _process at 1. rewrite bind_emit. cbn [class_of fst snd ret successor_of].
  destruct (CourseTitleHandler_process (_courses bot) q) as [a|] eqn:Ht.
  { unfold CourseTitleHandler_process in Ht.
    destruct (find_by_title _ _); [| discriminate].
    injection Ht as <-. reflexivity. }
  cbn [bind].
  rewrite (handle_step _ _ _ _ _ _ (wf_semantic _ Hwf)).
  unfold _process. rewrite bind_emit. cbn [class_of fst snd successor_of].
  destruct (SemanticHandler_process _ _ _ q cs) as [evs [[a|]|e]] eqn:Hs;
    cbn [bind fst snd ret app].
  - rewrite (semantic_answer_truthy _ _ _ _ _ _ _ Hs). cbn [ret app].
    now rewrite app_nil_r.
  - now rewrite app_nil_r.
  - reflexivity.
Qed.

(** With live policies and a truthy store the terminal stage retrieves,
    then generates. *)
Lemma semantic_process_runs (bot : CSEChatbot) (q : text)
    (cs : option ContentStore) (s : RetrievalStrategy) (p : LLMProvider) :
  active_strategy bot = Some s → active_provider bot = Some p →
  content_store_truthy cs = true →
  SemanticHandler_process (objects bot) (Some (strategy bot)) (Some (provider bot)) q cs
  = (let! context := retrieve s q cs in
     let! answer := generate_answer p q (CtxList context) in
     ret (Some answer)).
Proof.
  unfold active_strategy, active_provider, SemanticHandler_process.
  intros Hs Hp ->. unfold get_strategy, get_provider.
  destruct (objects bot !! strategy bot) as [[s0| |]|]; try discriminate.
  destruct (objects bot !! provider bot) as [[|p0|]|]; try discriminate.
  injection Hs as ->. injection Hp as ->.
  now rewrite !bind_ret_l.
Qed.

Lemma semantic_process_skips (σ : list object) (sl pl : option nat) (q : text)
    (cs : option ContentStore) :
  sl = None ∨ pl = None ∨ content_store_truthy cs = false →
  SemanticHandler_process σ sl pl q cs = ([], Return None).
Proof.
  unfold SemanticHandler_process.
  intros [-> | [-> | Hc]]; [reflexivity | now destruct sl |].
  destruct sl, pl; try reflexivity. now rewrite Hc.
Qed.

Lemma generate_answer_tag (p : LLMProvider) (q : text) (c : context)
    (evs : list event) (a : text) :
  generate_answer p q c = (evs, Return a) → startswith (provider_tag p) a = true.
Proof.
  destruct p as [model host port | |]; simpl.
  - destruct (ollama_generate _ _ _ _ _); simpl; intros [= _ <-]; reflexivity.
  - intros [= _ <-]. reflexivity.
  - intros [= _ <-]. reflexivity.
Qed.

Lemma retrieve_on_store (s : RetrievalStrategy) (q : text) (cs : ContentStore) :
  retrieve s q (Some cs)
  = ([EvFindRelevantChunks q (requested_chunks s)],
     find_relevant_chunks cs q (requested_chunks s)).
Proof. destruct s; reflexivity. Qed.

Lemma wf_active (bot : CSEChatbot) :
  chain_wf bot → ∃ s p, active_strategy bot = Some s ∧ active_provider bot = Some p.
Proof.
  intros Hwf. destruct (wf_strategy _ Hwf) as [s Hs], (wf_provider _ Hwf) as [p Hp].
  exists s, p. unfold active_strategy, active_provider. now rewrite Hs, Hp.
Qed.

(** What the terminal stage yields when it runs. *)
Lemma semantic_process_answer (bot : CSEChatbot) (q : text)
    (cs : option ContentStore) (p : LLMProvider) :
  chain_wf bot → active_provider bot = Some p →
  content_store_truthy cs = true →
  match snd (SemanticHandler_process (objects bot) (Some (strategy bot))
               (Some (provider bot)) q cs) with
  | Return (Some a) => startswith (provider_tag p) a = true
  | Return None => False
  | Raise _ => True
  end.
Proof.
  intros Hwf Hp Hc. destruct (wf_active _ Hwf) as (s & p' & Hs & Hp').
  assert (p' = p) as -> by congruence.
  rewrite (semantic_process_runs _ _ _ _ _ Hs Hp Hc).
  unfold bind at 1. destruct (retrieve s q cs) as [evs1 [chunks|e]]; [| exact I].
  unfold bind. destruct (generate_answer p q (CtxList chunks)) as [evs2 [a|e]] eqn:Hg;
    [| exact I].
  cbn. exact (generate_answer_tag _ _ _ _ _ Hg).
Qed.
End ChainAnyStore.

(** X1. On a well-formed chain, [handle] returns the fallback message
    exactly when neither the identifier stage nor the title stage answers
    and the store argument is absent or falsy; no collaborator is called
    then. *)
Theorem X1_fallback_iff_no_match_and_no_store `{Collaborators}
    (bot : CSEChatbot) (depth : nat) (q : text) (cs : option ContentStore) :
  chain_wf bot → 3 ≤ depth →
  (snd (handle depth (objects bot) (_handler_chain bot) q cs) = Return fallback_message
   ↔ CourseIdHandler_process (_courses bot) q = None
     ∧ CourseTitleHandler_process (_courses bot) q = None
     ∧ content_store_truthy cs = false)
  ∧ (snd (handle depth (objects bot) (_handler_chain bot) q cs) = Return fallback_message →
     fst (handle depth (objects bot) (_handler_chain bot) q cs)
     = [EvProcess CourseIdHandler_cls; EvProcess CourseTitleHandler_cls;
        EvProcess SemanticHandler_cls]).
Proof.
  intros Hwf Hd. destruct depth as [|[|[|d]]]; try lia.
  rewrite (handle_chain _ _ _ _ Hwf).
  destruct (CourseIdHandler_process (_courses bot) q) as [a|] eqn:Hid.
  { unfold CourseIdHandler_process in Hid.
    destruct (search_id q); [| discriminate].
    destruct (find_by_id _ _); [| discriminate].
    injection Hid as <-. cbn [fst snd].
    split; [split |]; [intros [=] | intros (Hx & _); discriminate | intros [=]]. }
  destruct (CourseTitleHandler_process (_courses bot) q) as [a|] eqn:Ht.
  { unfold CourseTitleHandler_process in Ht.
    destruct (find_by_title _ _); [| discriminate].
    injection Ht as <-. cbn [fst snd].
    split; [split |]; [intros [=] | intros (_ & Hx & _); discriminate | intros [=]]. }
  cbv zeta. cbn [fst snd].
  destruct (content_store_truthy cs) eqn:Hc.
  - destruct (wf_active _ Hwf) as (s & p & Hs & Hp).
    pose proof (semantic_process_answer _ q cs p Hwf Hp Hc) as Hans.
    destruct (snd (SemanticHandler_process _ _ _ q cs)) as [[a|]|e]; [| contradiction |].
    + assert (Return a ≠ Return fallback_message) as Hne.
      { intros [= ->]. destruct p; discriminate. }
      split; [split |]; [intros Hx; contradiction | intros (_ & _ & [=]) |
                         intros Hx; contradiction].
    + split; [split |]; [intros [=] | intros (_ & _ & [=]) | intros [=]].
  - rewrite semantic_process_skips by auto. cbn [fst snd].
    split; [split |]; auto.
Qed.

Lemma X1_witness :
  chain_wf Demo.bot ∧ 3 ≤ 3
  ∧ handle (H := Demo.collaborators) 3 (objects Demo.bot) (_handler_chain Demo.bot) "hello" None
    = ([EvProcess CourseIdHandler_cls; EvProcess CourseTitleHandler_cls;
        EvProcess SemanticHandler_cls], Return fallback_message).
Proof.
  split; [exact demo_bot_wf |]. split; [lia |].
  pose proof (X1_fallback_iff_no_match_and_no_store Demo.bot 3 "hello" None
                demo_bot_wf (le_n 3)) as [[_ Hback] Hevs].
  assert (Hr : snd (handle (H := Demo.collaborators) 3 (objects Demo.bot) (_handler_chain Demo.bot) "hello" None)
               = Return fallback_message) by (apply Hback; repeat split).
  specialize (Hevs Hr).
  destruct (handle (H := Demo.collaborators) 3 (objects Demo.bot) (_handler_chain Demo.bot) "hello" None) as [evs r].
  cbn [fst snd] in *. now rewrite Hr, Hevs.
Defined.

(** X2. When neither of the first two stages answers, the answer [ask]
    returns begins with the tag of the provider the controller refers to
    if the store is truthy, and is the fallback message otherwise. *)
Theorem X2_semantic_answer_carries_provider_tag `{Collaborators}
    (bot : CSEChatbot) (depth : nat) (q : text) (p : LLMProvider)
    (evs : list event) (a : text) :
  chain_wf bot → 3 ≤ depth → active_provider bot = Some p →
  CourseIdHandler_process (_courses bot) q = None →
  CourseTitleHandler_process (_courses bot) q = None →
  ask depth bot q = (evs, Return a) →
  if store_truthy (_store bot)
  then PyStr.startswith (provider_tag p) a = true
  else a = fallback_message.
Proof.
  intros Hwf Hd Hp Hid Ht Hask. destruct depth as [|[|[|d]]]; try lia.
  unfold ask in Hask. rewrite (handle_chain _ _ _ _ Hwf), Hid, Ht in Hask.
  cbv zeta in Hask.
  destruct (store_truthy (_store bot)) eqn:Hc.
  - pose proof (semantic_process_answer _ q (Some (_store bot)) p Hwf Hp Hc) as Hans.
    destruct (snd (SemanticHandler_process _ _ _ q _)) as [[a0|]|e];
      [| contradiction | discriminate].
    injection Hask as _ <-. exact Hans.
  - rewrite semantic_process_skips in Hask by auto. cbn [fst snd] in Hask.
    now injection Hask as _ <-.
Qed.

Lemma X2_witness :
  chain_wf Demo.bot_openai ∧ 3 ≤ 3
  ∧ active_provider Demo.bot_openai = Some OpenAIProvider
  ∧ ask 3 Demo.bot_openai "Which course covers design patterns?"
    = ([EvProcess CourseIdHandler_cls; EvProcess CourseTitleHandler_cls;
        EvProcess SemanticHandler_cls;
        EvFindRelevantChunks "Which course covers design patterns?" 3],
       Return (txt "[OpenAI] Answer for 'Which course covers design patterns?' based on: [Chunk(4361), Chunk(2320)]..."))
  ∧ PyStr.startswith "[OpenAI] "
      "[OpenAI] Answer for 'Which course covers design patterns?' based on: [Chunk(4361), Chunk(2320)]..."
    = true.
Proof.
  assert (Hask : ask 3 Demo.bot_openai "Which course covers design patterns?"
    = ([EvProcess CourseIdHandler_cls; EvProcess CourseTitleHandler_cls;
        EvProcess SemanticHandler_cls;
        EvFindRelevantChunks "Which course covers design patterns?" 3],
       Return (txt "[OpenAI] Answer for 'Which course covers design patterns?' based on: [Chunk(4361), Chunk(2320)]...")))
    by reflexivity.
  split; [exact demo_bot_openai_wf |]. split; [lia |].
  split; [reflexivity |]. split; [exact Hask |].
  exact (X2_semantic_answer_carries_provider_tag Demo.bot_openai 3
           "Which course covers design patterns?" OpenAIProvider _ _
           demo_bot_openai_wf (le_n 3) eq_refl eq_refl eq_refl Hask).
Defined.

(** The run of [ask] through the terminal stage. *)
Lemma ask_semantic_path `{Collaborators}
    (bot : CSEChatbot) (depth : nat) (q : text)
    (s : RetrievalStrategy) (p : LLMProvider) :
  chain_wf bot → 3 ≤ depth →
  active_strategy bot = Some s → active_provider bot = Some p →
  CourseIdHandler_process (_courses bot) q = None →
  CourseTitleHandler_process (_courses bot) q = None →
  store_truthy (_store bot) = true →
  let stages :=
    [EvProcess CourseIdHandler_cls; EvProcess CourseTitleHandler_cls;
     EvProcess SemanticHandler_cls;
     EvFindRelevantChunks q (requested_chunks s)] in
  ask depth bot q
  = match find_relevant_chunks (_store bot) q (requested_chunks s) with
    | Return chunks =>
        (stages ++ fst (generate_answer p q (CtxList chunks)),
         snd (generate_answer p q (CtxList chunks)))
    | Raise e => (stages, Raise e)
    end.
Proof.
  intros Hwf Hd Hs Hp Hid Ht Hc. destruct depth as [|[|[|d]]]; try lia.
  unfold ask. rewrite (handle_chain _ _ _ _ Hwf), Hid, Ht. cbv zeta.
  rewrite (semantic_process_runs _ _ (Some (_store bot)) _ _ Hs Hp Hc).
  rewrite retrieve_on_store. unfold bind at 1.
  destruct (find_relevant_chunks _ _ _) as [chunks|e]; [| reflexivity].
  unfold bind. destruct (generate_answer p q (CtxList chunks)) as [evs [a|e]];
    cbn; now rewrite ?app_nil_r.
Qed.

(** X3. When neither of the first two stages answers and the store is
    truthy, [ask] makes exactly one lookup, for the number of chunks the
    active strategy asks for; the provider runs on the chunks found, and
    does not run at all when the lookup raises: the exception leaves
    [ask]. *)
Theorem X3_one_lookup_then_generation `{Collaborators}
    (bot : CSEChatbot) (depth : nat) (q : text)
    (s : RetrievalStrategy) (p : LLMProvider) :
  chain_wf bot → 3 ≤ depth →
  active_strategy bot = Some s → active_provider bot = Some p →
  CourseIdHandler_process (_courses bot) q = None →
  CourseTitleHandler_process (_courses bot) q = None →
  store_truthy (_store bot) = true →
  let stages :=
    [EvProcess CourseIdHandler_cls; EvProcess CourseTitleHandler_cls;
     EvProcess SemanticHandler_cls;
     EvFindRelevantChunks q (requested_chunks s)] in
  ask depth bot q
  = match find_relevant_chunks (_store bot) q (requested_chunks s) with
    | Return chunks =>
        (stages ++ fst (generate_answer p q (CtxList chunks)),
         snd (generate_answer p q (CtxList chunks)))
    | Raise e => (stages, Raise e)
    end.
Proof.
  intros Hwf Hd Hs Hp Hid Ht Hc. now apply ask_semantic_path.
Qed.

Lemma X3_witness :
  chain_wf Demo.bot ∧ 3 ≤ 3
  ∧ active_strategy Demo.bot = Some (TopNStrategy 3)
  ∧ active_provider Demo.bot = Some (OllamaProvider "phi3" "localhost" 11434)
  ∧ ask 3 Demo.bot "hello"
    = ([EvProcess CourseIdHandler_cls; EvProcess CourseTitleHandler_cls;
        EvProcess SemanticHandler_cls; EvFindRelevantChunks "hello" 3;
        EvGenerate "hello"
          ("Software Design Patterns: Reusable object-oriented designs"
             ++ newline ++ "Data Structures: Lists, trees and graphs")],
       Return (txt "[Ollama] generated text")).
Proof.
  split; [exact demo_bot_wf |]. split; [lia |].
  split; [reflexivity |]. split; [reflexivity |].
  exact (X3_one_lookup_then_generation Demo.bot 3 "hello" _ _
           demo_bot_wf (le_n 3) eq_refl eq_refl eq_refl eq_refl eq_refl).
Defined.

(** ** The loader on readable sources *)

Section LoaderFacts.
Context `{Collaborators}.

Lemma load_loop_all (lines : list text) (courses acc : list Course) :
  Forall2 (λ line c, parse_course line = Return c) lines courses →
  load_loop lines acc = (acc ++ courses, Return tt).
Proof.
  intros Hall. revert acc.
  induction Hall as [|line c lines courses Hline _ IH]; intros acc; cbn [load_loop].
  - now rewrite app_nil_r.
  - rewrite Hline, IH, <- app_assoc. reflexivity.
Qed.

Lemma load_loop_stops (good rest : list text) (bad : text)
    (courses acc : list Course) (e : exn) :
  Forall2 (λ line c, parse_course line = Return c) good courses →
  parse_course bad = Raise e →
  load_loop (good ++ bad :: rest) acc = (acc ++ courses, Raise e).
Proof.
  intros Hall Hbad. revert acc.
  induction Hall as [|line c lines courses Hline _ IH]; intros acc;
    cbn [load_loop app].
  - now rewrite Hbad, app_nil_r.
  - rewrite Hline, IH, <- app_assoc. reflexivity.
Qed.
End LoaderFacts.

(** X4. When the file opens and every line decodes to a record with text
    fields [id], [title] and [description], the loader returns one course
    per line, in the order of the file, and prints nothing. *)
Theorem X4_load_keeps_file_order `{Collaborators}
    (path : text) (lines : list text) (courses : list Course) :
  open_lines path = Return lines →
  Forall2 (λ line c, parse_course line = Return c) lines courses →
  _load_courses path = ([], Return courses)
  ∧ length courses = length lines.
Proof.
  intros Ho Hall. split; [| symmetry; exact (Forall2_length _ _ _ Hall)].
  unfold _load_courses. rewrite Ho, (load_loop_all _ _ [] Hall). reflexivity.
Qed.

Lemma X4_witness :
  open_lines (Collaborators := DemoFile.collaborators) "courses.jsonl"
  = Return [DemoFile.record Demo.course_4361 ++ newline;
            DemoFile.record Demo.course_2320 ++ newline]
  ∧ _load_courses (H := DemoFile.collaborators) "courses.jsonl"
    = ([], Return Demo.catalog).
Proof.
  split; [reflexivity |].
  refine (proj1 (X4_load_keeps_file_order (H := DemoFile.collaborators)
                   "courses.jsonl" _ Demo.catalog eq_refl _)).
  repeat constructor.
Defined.

(** X5. When a line raises after lines that load (the decoder rejects
    it, the document is no object, or a key is missing), the loader raises
    that exception: no course is returned, nothing is printed, the lines
    after it are not read, and [__init__] raises likewise. *)
Theorem X5_first_bad_line_aborts_the_load `{Collaborators}
    (path : text) (good rest : list text) (bad : text)
    (courses : list Course) (e : exn) :
  open_lines path = Return (good ++ bad :: rest) →
  Forall2 (λ line c, parse_course line = Return c) good courses →
  parse_course bad = Raise e → line_error e →
  _load_courses path = ([], Raise e) ∧ __init__ path = ([], Raise e).
Proof.
  intros Ho Hall Hbad He.
  assert (_load_courses path = ([], Raise e)) as Hl.
  { unfold _load_courses. rewrite Ho, (load_loop_stops _ _ _ _ [] _ Hall Hbad).
    destruct He as [-> | [-> | [key ->]]]; reflexivity. }
  split; [exact Hl |]. unfold __init__. now rewrite Hl.
Qed.

Lemma X5_witness :
  open_lines (Collaborators := DemoFile.collaborators) "broken.jsonl"
  = Return ([DemoFile.record Demo.course_4361 ++ newline]
              ++ (DemoFile.untitled_record Demo.course_2320 ++ newline)
              :: [DemoFile.record Demo.course_2320 ++ newline])
  ∧ parse_course (H := DemoFile.collaborators)
      (DemoFile.untitled_record Demo.course_2320 ++ newline)
    = Raise (KeyError "title")
  ∧ line_error (KeyError "title")
  ∧ __init__ (H := DemoFile.collaborators) "broken.jsonl"
    = ([], Raise (KeyError "title")).
Proof.
  assert (He : line_error (KeyError "title")) by (right; right; eexists; reflexivity).
  split; [reflexivity |]. split; [reflexivity |]. split; [exact He |].
  refine (proj2 (X5_first_bad_line_aborts_the_load (H := DemoFile.collaborators)
                   "broken.jsonl" [_] [_] _ [Demo.course_4361] _ eq_refl _ eq_refl He)).
  repeat constructor.
Defined.

(** ** Construction *)

(** X6. After the catalog is loaded, construction prints its first two
    progress lines, hands the store one chunk per course in a single call,
    and prints the closing line only if that call returns; the controller
    it then builds has the given catalog, the indexed store, five objects,
    a top-3 strategy and the local provider with its default model, host
    and port, and is well formed.  An exception of the store ends
    construction. *)
Theorem X6_construction_indexes_then_wires_defaults `{Collaborators}
    (courses : list Course) :
  construct courses
  = match store_chunks new_store (map course_chunk courses) with
    | Return store =>
        ([EvPrint "Initializing RAG components..."; EvPrint "Indexing courses...";
          EvStore (length courses); EvPrint "Indexing complete."],
         Return (init_policies courses store))
    | Raise e =>
        ([EvPrint "Initializing RAG components..."; EvPrint "Indexing courses...";
          EvStore (length courses)],
         Raise e)
    end
  ∧ ∀ store,
      let bot := init_policies courses store in
      chain_wf bot ∧ _courses bot = courses ∧ _store bot = store
      ∧ length (objects bot) = 5
      ∧ active_strategy bot = Some (TopNStrategy 3)
      ∧ active_provider bot = Some (OllamaProvider "phi3" "localhost" 11434).
Proof.
  split.
  - unfold construct, _init_rag_components, _index_courses, print, emit, call, bind, ret.
    rewrite length_map. destruct (store_chunks _ _); reflexivity.
  - intros store. cbv zeta.
    split; [split; try reflexivity; eexists; reflexivity | repeat split].
Qed.

(** ** Operations in sequence *)

Section OperationFacts.
Context `{Collaborators}.

Lemma apply_operation_frame (bot bot' : CSEChatbot) (op : operation)
    (evs : list event) :
  chain_wf bot → apply_operation op bot = (evs, Return bot') →
  _courses bot' = _courses bot ∧ _store bot' = _store bot
  ∧ _handler_chain bot' = _handler_chain bot
  ∧ _title_handler bot' = _title_handler bot
  ∧ _semantic_handler bot' = _semantic_handler bot.
Proof.
  intros Hwf Hop. destruct op as [n | n | d q]; cbn [apply_operation] in Hop.
  - destruct (table_lookup n strategies) as [s|] eqn:Hn.
    + rewrite (set_strategy_known _ Hwf _ _ Hn) in Hop.
      injection Hop as _ <-. repeat split.
    + unfold set_strategy in Hop. rewrite Hn in Hop.
      injection Hop as _ <-. repeat split.
  - destruct (table_lookup n providers) as [p|] eqn:Hn.
    + rewrite (set_provider_known _ Hwf _ _ Hn) in Hop.
      injection Hop as _ <-. repeat split.
    + unfold set_provider in Hop. rewrite Hn in Hop.
      injection Hop as _ <-. repeat split.
  - unfold bind in Hop. destruct (ask d bot q) as [evs0 [a|e]]; [| discriminate].
    cbn in Hop. injection Hop as _ <-. repeat split.
Qed.

Lemma apply_operations_frame (ops : list operation) (bot bot' : CSEChatbot)
    (evs : list event) :
  chain_wf bot → apply_operations ops bot = (evs, Return bot') →
  chain_wf bot' ∧ _courses bot' = _courses bot ∧ _store bot' = _store bot
  ∧ _handler_chain bot' = _handler_chain bot
  ∧ _title_handler bot' = _title_handler bot
  ∧ _semantic_handler bot' = _semantic_handler bot.
Proof.
  revert bot evs. induction ops as [|op ops IH]; intros bot evs Hwf Hops;
    cbn [apply_operations] in Hops.
  - injection Hops as _ <-. split; [exact Hwf | repeat split].
  - unfold bind in Hops.
    destruct (apply_operation op bot) as [evs1 [bot1|e]] eqn:Hop; [| discriminate].
    destruct (apply_operations ops bot1) as [evs2 r] eqn:Hrest.
    injection Hops as _ ->.
    pose proof (apply_operation_wf _ Hwf _ _ _ Hop) as Hwf1.
    destruct (apply_operation_frame _ _ _ _ Hwf Hop) as (Hc & Hs & Hh & Ht & Hm).
    destruct (IH _ _ Hwf1 Hrest) as (Hwf' & Hc' & Hs' & Hh' & Ht' & Hm').
    split; [exact Hwf' |]. repeat split; congruence.
Qed.

(** An answer of the first two stages depends on the catalog alone. *)
Lemma ask_first_stages (bot : CSEChatbot) (d : nat) (q : text) :
  chain_wf bot →
  CourseIdHandler_process (_courses bot) q ≠ None
  ∨ CourseTitleHandler_process (_courses bot) q ≠ None →
  ask (S (S d)) bot q
  = match CourseIdHandler_process (_courses bot) q with
    | Some a => ([EvProcess CourseIdHandler_cls], Return a)
    | None =>
        ([EvProcess CourseIdHandler_cls; EvProcess CourseTitleHandler_cls],
         match CourseTitleHandler_process (_courses bot) q with
         | Some a => Return a
         | None => Return fallback_message
         end)
    end.
Proof.
  intros Hwf Hans.
  destruct (CourseIdHandler_process (_courses bot) q) as [a|] eqn:Hid.
  - now apply ask_id_answer.
  - rewrite (ask_id_none _ Hwf _ _ Hid).
    destruct (CourseTitleHandler_process (_courses bot) q) as [a|] eqn:Ht.
    + now rewrite (title_handle_answer _ Hwf _ _ _ Ht).
    + destruct Hans as [Hx | Hx]; contradiction.
Qed.
End OperationFacts.

(** X7. Whatever operations are applied to a well-formed controller, in
    any number and order, the catalog, the store and the three handlers
    stay the same and the controller stays well formed; hence a query that
    the identifier stage or the title stage answers gets the same answer,
    through the same stages, before and after. *)
Theorem X7_operations_leave_catalog_answers_alone `{Collaborators}
    (bot bot' : CSEChatbot) (ops : list operation) (evs : list event) :
  chain_wf bot → apply_operations ops bot = (evs, Return bot') →
  chain_wf bot'
  ∧ _courses bot' = _courses bot ∧ _store bot' = _store bot
  ∧ _handler_chain bot' = _handler_chain bot
  ∧ _title_handler bot' = _title_handler bot
  ∧ _semantic_handler bot' = _semantic_handler bot
  ∧ ∀ depth q,
      2 ≤ depth →
      CourseIdHandler_process (_courses bot) q ≠ None
      ∨ CourseTitleHandler_process (_courses bot) q ≠ None →
      ask depth bot' q = ask depth bot q.
Proof.
  intros Hwf Hops.
  destruct (apply_operations_frame _ _ _ _ Hwf Hops) as (Hwf' & Hc & Hs & Hh & Ht & Hm).
  split; [exact Hwf' |]. repeat split; try assumption.
  intros depth q Hd Hans. destruct depth as [|[|d]]; try lia.
  rewrite (ask_first_stages bot _ _ Hwf Hans).
  rewrite <- Hc in Hans. rewrite (ask_first_stages bot' _ _ Hwf' Hans).
  now rewrite Hc.
Qed.

Lemma X7_witness :
  chain_wf Demo.bot
  ∧ apply_operations (H := Demo.collaborators)
      [OpSetStrategy "document"; OpAsk 3 "hello"; OpSetProvider "gemini";
       OpSetProvider "nope"] Demo.bot
    = ([EvPrint "Strategy changed to: document";
        EvProcess CourseIdHandler_cls; EvProcess CourseTitleHandler_cls;
        EvProcess SemanticHandler_cls; EvFindRelevantChunks "hello" 5;
        EvGenerate "hello"
          ("Software Design Patterns: Reusable object-oriented designs"
             ++ newline ++ "Data Structures: Lists, trees and graphs");
        EvPrint "Provider changed to: gemini"; EvPrint "Unknown provider: nope"],
       Return (provider_swapped (strategy_swapped Demo.bot DocumentStrategy)
                 GeminiProvider))
  ∧ ask 3 (provider_swapped (strategy_swapped Demo.bot DocumentStrategy) GeminiProvider)
      "Tell me about course 4361"
    = ask 3 Demo.bot "Tell me about course 4361".
Proof.
  assert (Hops : apply_operations (H := Demo.collaborators)
      [OpSetStrategy "document"; OpAsk 3 "hello"; OpSetProvider "gemini";
       OpSetProvider "nope"] Demo.bot
    = ([EvPrint "Strategy changed to: document";
        EvProcess CourseIdHandler_cls; EvProcess CourseTitleHandler_cls;
        EvProcess SemanticHandler_cls; EvFindRelevantChunks "hello" 5;
        EvGenerate "hello"
          ("Software Design Patterns: Reusable object-oriented designs"
             ++ newline ++ "Data Structures: Lists, trees and graphs");
        EvPrint "Provider changed to: gemini"; EvPrint "Unknown provider: nope"],
       Return (provider_swapped (strategy_swapped Demo.bot DocumentStrategy)
                 GeminiProvider))) by reflexivity.
  split; [exact demo_bot_wf |]. split; [exact Hops |].
  destruct (X7_operations_leave_catalog_answers_alone _ _ _ _ demo_bot_wf Hops)
    as (_ & _ & _ & _ & _ & _ & Hsame).
  apply Hsame; [lia | left; discriminate].
Defined.

(** ** A swap followed by a question *)

Section SwapThenAsk.
Context `{Collaborators}.
Variable bot : CSEChatbot.
Hypothesis Hwf : chain_wf bot.

Lemma strategy_swapped_active (s : RetrievalStrategy) :
  active_strategy (strategy_swapped bot s) = Some s
  ∧ active_provider (strategy_swapped bot s) = active_provider bot.
Proof.
  pose proof (semantic_live _ Hwf) as Hsem.
  unfold active_strategy, active_provider.
  cbn [strategy_swapped with_strategy objects strategy provider].
  rewrite lookup_new_after_swap by exact Hsem.
  destruct (wf_provider _ Hwf) as [p Hp].
  rewrite lookup_after_swap;
    [| exact (lookup_lt_Some _ _ _ Hp) | exact (provider_not_semantic _ Hwf)].
  split; reflexivity.
Qed.

Lemma provider_swapped_active (p : LLMProvider) :
  active_provider (provider_swapped bot p) = Some p
  ∧ active_strategy (provider_swapped bot p) = active_strategy bot.
Proof.
  pose proof (semantic_live _ Hwf) as Hsem.
  unfold active_strategy, active_provider.
  cbn [provider_swapped with_provider objects strategy provider].
  rewrite lookup_new_after_swap by exact Hsem.
  destruct (wf_strategy _ Hwf) as [s Hs].
  rewrite lookup_after_swap;
    [| exact (lookup_lt_Some _ _ _ Hs) | exact (strategy_not_semantic _ Hwf)].
  split; reflexivity.
Qed.
End SwapThenAsk.

(** X8. After [set_strategy] with a known name, the controller's strategy
    is the named one and its provider is the one it had; a question that
    reaches the terminal stage is then served by one lookup for the number
    of chunks the new strategy asks for, answered by the same provider. *)
Theorem X8_new_strategy_serves_the_next_question `{Collaborators}
    (bot : CSEChatbot) (name : text) (s : RetrievalStrategy) (p : LLMProvider)
    (depth : nat) (q : text) :
  chain_wf bot → table_lookup name strategies = Some s →
  active_provider bot = Some p → 3 ≤ depth →
  CourseIdHandler_process (_courses bot) q = None →
  CourseTitleHandler_process (_courses bot) q = None →
  store_truthy (_store bot) = true →
  ∃ bot',
    set_strategy bot name = ([EvPrint ("Strategy changed to: " ++ name)], Return bot')
    ∧ active_strategy bot' = Some s ∧ active_provider bot' = Some p
    ∧ ask depth bot' q
      = let stages :=
          [EvProcess CourseIdHandler_cls; EvProcess CourseTitleHandler_cls;
           EvProcess SemanticHandler_cls;
           EvFindRelevantChunks q (requested_chunks s)] in
        match find_relevant_chunks (_store bot) q (requested_chunks s) with
        | Return chunks =>
            (stages ++ fst (generate_answer p q (CtxList chunks)),
             snd (generate_answer p q (CtxList chunks)))
        | Raise e => (stages, Raise e)
        end.
Proof.
  intros Hwf Hn Hp Hd Hid Ht Hc.
  destruct (strategy_swapped_active _ Hwf s) as [Hs' Hp'].
  exists (strategy_swapped bot s).
  split; [now apply set_strategy_known |]. split; [exact Hs' |].
  split; [congruence |].
  apply (ask_semantic_path (strategy_swapped bot s) depth q s p);
    [now apply strategy_swapped_wf | exact Hd | exact Hs' | congruence
     | exact Hid | exact Ht | exact Hc].
Qed.

Lemma X8_witness :
  chain_wf Demo.bot
  ∧ table_lookup "document" strategies = Some DocumentStrategy
  ∧ ∃ bot',
      set_strategy Demo.bot "document"
      = ([EvPrint "Strategy changed to: document"], Return bot')
      ∧ ask 3 bot' "hello"
        = ([EvProcess CourseIdHandler_cls; EvProcess CourseTitleHandler_cls;
            EvProcess SemanticHandler_cls; EvFindRelevantChunks "hello" 5;
            EvGenerate "hello"
              ("Software Design Patterns: Reusable object-oriented designs"
                 ++ newline ++ "Data Structures: Lists, trees and graphs")],
           Return (txt "[Ollama] generated text")).
Proof.
  split; [exact demo_bot_wf |]. split; [reflexivity |].
  destruct (X8_new_strategy_serves_the_next_question Demo.bot "document"
              DocumentStrategy (OllamaProvider "phi3" "localhost" 11434) 3 "hello"
              demo_bot_wf eq_refl eq_refl (le_n 3) eq_refl eq_refl eq_refl)
    as (bot' & Hset & _ & _ & Hask).
  exists bot'. split; [exact Hset | exact Hask].
Defined.

(** X9. After [set_provider] with a known name, the controller's provider
    is the named one and its strategy is the one it had; a question that
    reaches the terminal stage is then answered by the new provider, on
    the chunks the same strategy retrieves. *)
Theorem X9_new_provider_serves_the_next_question `{Collaborators}
    (bot : CSEChatbot) (name : text) (s : RetrievalStrategy) (p : LLMProvider)
    (depth : nat) (q : text) :
  chain_wf bot → table_lookup name providers = Some p →
  active_strategy bot = Some s → 3 ≤ depth →
  CourseIdHandler_process (_courses bot) q = None →
  CourseTitleHandler_process (_courses bot) q = None →
  store_truthy (_store bot) = true →
  ∃ bot',
    set_provider bot name = ([EvPrint ("Provider changed to: " ++ name)], Return bot')
    ∧ active_provider bot' = Some p ∧ active_strategy bot' = Some s
    ∧ ask depth bot' q
      = let stages :=
          [EvProcess CourseIdHandler_cls; EvProcess CourseTitleHandler_cls;
           EvProcess SemanticHandler_cls;
           EvFindRelevantChunks q (requested_chunks s)] in
        match find_relevant_chunks (_store bot) q (requested_chunks s) with
        | Return chunks =>
            (stages ++ fst (generate_answer p q (CtxList chunks)),
             snd (generate_answer p q (CtxList chunks)))
        | Raise e => (stages, Raise e)
        end.
Proof.
  intros Hwf Hn Hs Hd Hid Ht Hc.
  destruct (provider_swapped_active _ Hwf p) as [Hp' Hs'].
  exists (provider_swapped bot p).
  split; [now apply set_provider_known |]. split; [exact Hp' |].
  split; [congruence |].
  apply (ask_semantic_path (provider_swapped bot p) depth q s p);
    [now apply provider_swapped_wf | exact Hd | congruence | exact Hp'
     | exact Hid | exact Ht | exact Hc].
Qed.

Lemma X9_witness :
  chain_wf Demo.bot
  ∧ table_lookup "gemini" providers = Some GeminiProvider
  ∧ ∃ bot',
      set_provider Demo.bot "gemini"
      = ([EvPrint "Provider changed to: gemini"], Return bot')
      ∧ ask 3 bot' "hello"
        = ([EvProcess CourseIdHandler_cls; EvProcess CourseTitleHandler_cls;
            EvProcess SemanticHandler_cls; EvFindRelevantChunks "hello" 3],
           Return (txt "[Gemini] Answer for 'hello' based on: [Chunk(4361), Chunk(2320)]...")).
Proof.
  split; [exact demo_bot_wf |]. split; [reflexivity |].
  destruct (X9_new_provider_serves_the_next_question Demo.bot "gemini"
              (TopNStrategy 3) GeminiProvider 3 "hello"
              demo_bot_wf eq_refl eq_refl (le_n 3) eq_refl eq_refl eq_refl)
    as (bot' & Hset & _ & _ & Hask).
  exists bot'. split; [exact Hset | exact Hask].
Defined.

(** ** The interactive loop *)

Module SplitFacts.
Section Split.
Context `{Unicode}.
Import PyStr PyStrFacts.

(** Lowering a text without white space gives a text without white
    space. *)
Lemma no_space_lower (s : text) : no_space s = true → no_space (lower s) = true.
Proof. apply lower_adds_no_space. Qed.

Lemma no_space_app (a b : text) :
  no_space (a ++ b) = no_space a && no_space b.
Proof. apply forallb_app. Qed.

(** A text with a blank in it is no single word. *)
Lemma no_space_blank (a b : text) : no_space (a ++ 32%N :: b) = false.
Proof.
  rewrite no_space_app. unfold no_space at 2. cbn [forallb].
  rewrite space_is_space. cbn [negb andb]. apply andb_false_r.
Qed.

Lemma rstrip_last (s : text) (b : N) :
  last (rstrip s) = Some b → is_space b = false.
Proof.
  revert b. induction s as [|c s IH]; intros b; cbn [rstrip]; [discriminate |].
  destruct (rstrip s) as [|x r] eqn:E.
  - destruct (is_space c) eqn:Hc; simpl; [discriminate | congruence].
  - rewrite last_cons_some. specialize (IH b).
    destruct (last (x :: r)) as [y|] eqn:El.
    + intros [= <-]. now apply IH.
    + rewrite last_cons_some in El. discriminate.
Qed.

Lemma strip_last (s : text) (b : N) :
  last (strip s) = Some b → is_space b = false.
Proof. apply rstrip_last. Qed.

(** A text that does not end in white space is one word, or ends with a
    white-space character followed by a word. *)
Lemma last_word_decomp (s : text) (b : N) :
  last s = Some b → is_space b = false →
  no_space s = true
  ∨ ∃ before sp word,
      s = before ++ sp :: word ∧ is_space sp = true
      ∧ word ≠ [] ∧ no_space word = true.
Proof.
  revert b. induction s as [|c s IH]; intros b Hl Hb; [discriminate |].
  rewrite last_cons_some in Hl.
  destruct (last s) as [x|] eqn:El.
  - injection Hl as ->. destruct (IH _ eq_refl Hb) as [Hn | (t & sp & w & -> & Hsp & Hw & Hn)].
    + destruct (is_space c) eqn:Hc.
      * right. exists [], c, s. repeat split; auto. intros ->. discriminate.
      * left. unfold no_space in *. simpl. now rewrite Hc, Hn.
    + right. exists (c :: t), sp, w. auto.
  - destruct s; [| rewrite last_cons_some in El; discriminate].
    injection Hl as ->. left. unfold no_space. simpl. now rewrite Hb.
Qed.

Lemma split_word (cur w : text) :
  no_space w = true → cur ++ w ≠ [] → split_from cur w = [cur ++ w].
Proof.
  revert cur. induction w as [|c w IH]; intros cur Hn Hne; cbn [split_from].
  - rewrite app_nil_r in *. destruct cur; [contradiction | reflexivity].
  - unfold no_space in Hn. simpl in Hn. apply andb_true_iff in Hn as [Hc Hn].
    apply negb_true_iff in Hc. rewrite Hc.
    rewrite IH; [now rewrite <- app_assoc | exact Hn |].
    rewrite <- app_assoc. exact Hne.
Qed.

Lemma split_last (before word cur : text) (sp : N) :
  is_space sp = true → word ≠ [] → no_space word = true →
  last (split_from cur (before ++ sp :: word)) = Some word.
Proof.
  intros Hsp Hw Hn. revert cur.
  assert (Hword : split_from [] word = [word]) by (now apply split_word).
  induction before as [|c t IH]; intros cur; cbn [split_from app].
  - rewrite Hsp, Hword. destruct cur; reflexivity.
  - destruct (is_space c); [| apply IH].
    destruct cur; [apply IH |].
    rewrite last_cons, IH. reflexivity.
Qed.

(** A stripped line whose lower-case form begins with a command keyword
    ends with a word of its own, which is what [split()[-1]] returns. *)
Lemma command_last_word (keyword u : text) :
  no_space keyword = false →
  startswith keyword (lower u) = true →
  (∀ b, last u = Some b → is_space b = false) →
  ∃ before sp name,
    u = before ++ sp :: name ∧ is_space sp = true
    ∧ name ≠ [] ∧ no_space name = true
    ∧ last (split u) = Some name.
Proof.
  intros Hk Hstart Hlast.
  apply startswith_inv in Hstart as [r Hr].
  assert (no_space u = false) as Hu.
  { destruct (no_space u) eqn:Hn; [| reflexivity].
    apply no_space_lower in Hn. rewrite Hr, no_space_app, Hk in Hn. discriminate. }
  destruct (last u) as [b|] eqn:El.
  - destruct (last_word_decomp _ _ El (Hlast _ eq_refl))
      as [Hn | (t & sp & w & -> & Hsp & Hw & Hn)]; [congruence |].
    exists t, sp, w. repeat split; auto. now apply split_last.
  - destruct u; [discriminate | rewrite last_cons_some in El; discriminate].
Qed.

End Split.
End SplitFacts.

Section MainFacts.
Context `{Collaborators}.
Import PyStr PyStrFacts SplitFacts.

Lemma command_line_guards (keyword u : text) :
  keyword = txt "set strategy " ∨ keyword = txt "set provider " →
  startswith keyword (lower u) = true →
  negb (truthy u) = false ∧ eqb (lower u) "exit" = false.
Proof.
  intros Hk Hs. split.
  - destruct u; [| reflexivity]. rewrite lower_empty in Hs.
    destruct Hk as [-> | ->]; discriminate.
  - apply eqb_neq. apply startswith_inv in Hs as [r ->].
    destruct Hk as [-> | ->]; discriminate.
Qed.

Lemma main_loop_strategy_command (depth : nat) (bot : CSEChatbot)
    (raw : text) (rest : list keyboard) :
  startswith "set strategy " (lower (strip raw)) = true →
  ∃ before sp name,
    strip raw = before ++ sp :: name ∧ is_space sp = true
    ∧ name ≠ [] ∧ no_space name = true
    ∧ main_loop depth bot (Typed raw :: rest)
      = match set_strategy bot name with
        | (evs, Return bot') =>
            and_then (Prompt "You: " :: map Out evs) (main_loop depth bot' rest)
        | (evs, Raise e) => (Prompt "You: " :: map Out evs, Uncaught e)
        end.
Proof.
  intros Hs.
  destruct (command_line_guards "set strategy " _ (or_introl eq_refl) Hs) as [Ht He].
  destruct (command_last_word "set strategy " (strip raw)
              (no_space_blank "set" "strategy ") Hs (strip_last raw))
    as (t & sp & name & Hu & Hsp & Hn & Hns & Hlast).
  exists t, sp, name. repeat split; auto.
  cbn [main_loop]. cbv zeta. now rewrite Ht, He, Hs, Hlast.
Qed.

Lemma main_loop_provider_command (depth : nat) (bot : CSEChatbot)
    (raw : text) (rest : list keyboard) :
  startswith "set provider " (lower (strip raw)) = true →
  ∃ before sp name,
    strip raw = before ++ sp :: name ∧ is_space sp = true
    ∧ name ≠ [] ∧ no_space name = true
    ∧ main_loop depth bot (Typed raw :: rest)
      = match set_provider bot name with
        | (evs, Return bot') =>
            and_then (Prompt "You: " :: map Out evs) (main_loop depth bot' rest)
        | (evs, Raise e) => (Prompt "You: " :: map Out evs, Uncaught e)
        end.
Proof.
  intros Hs.
  destruct (command_line_guards "set provider " _ (or_intror eq_refl) Hs) as [Ht He].
  destruct (command_last_word "set provider " (strip raw)
              (no_space_blank "set" "provider ") Hs (strip_last raw))
    as (t & sp & name & Hu & Hsp & Hn & Hns & Hlast).
  assert (startswith "set strategy " (lower (strip raw)) = false) as Hno.
  { apply startswith_inv in Hs as [r ->]. reflexivity. }
  exists t, sp, name. repeat split; auto.
  cbn [main_loop]. cbv zeta. now rewrite Ht, He, Hno, Hs, Hlast.
Qed.
End MainFacts.

(** X10. A typed line that, once stripped, begins with [set strategy ] in
    any letter case is a strategy command: the loop calls [set_strategy]
    with the last white-space-free word of the stripped line, in the case
    it was typed in, prints what [set_strategy] prints and goes on with the
    controller it returns; the line is never asked as a question and
    [split()[-1]] never fails. *)
Theorem X10_strategy_command_takes_the_last_word `{Collaborators}
    (depth : nat) (bot : CSEChatbot) (raw : text) (rest : list keyboard) :
  PyStr.startswith "set strategy " (lower (PyStr.strip raw)) = true →
  ∃ before sp name,
    PyStr.strip raw = before ++ sp :: name ∧ is_space sp = true
    ∧ name ≠ [] ∧ no_space name = true
    ∧ main_loop depth bot (Typed raw :: rest)
      = match set_strategy bot name with
        | (evs, Return bot') =>
            and_then (Prompt "You: " :: map Out evs) (main_loop depth bot' rest)
        | (evs, Raise e) => (Prompt "You: " :: map Out evs, Uncaught e)
        end.
Proof. apply main_loop_strategy_command. Qed.

Lemma X10_witness :
  PyStr.startswith "set strategy "
    (lower (Unicode := Demo.unicode_tables)
       (PyStr.strip (H := Demo.unicode_tables) "  SET Strategy Window ")) = true
  ∧ main_loop 3 Demo.bot [Typed "  SET Strategy Window "; Typed "Set strategy to window"]
    = ([Prompt "You: "; Out (EvPrint "Unknown strategy: Window");
        Prompt "You: "; Out (EvPrint "Strategy changed to: window");
        Prompt "You: "], EOFError).
Proof.
  split; [reflexivity |].
  destruct (X10_strategy_command_takes_the_last_word 3 Demo.bot
              "  SET Strategy Window " [Typed "Set strategy to window"] eq_refl)
    as (before & sp & name & Hu & Hsp & Hne & Hn & Hloop).
  rewrite Hloop. clear Hloop.
  pose proof (SplitFacts.split_last (H := Demo.unicode_tables)
                before name [] sp Hsp Hne Hn) as Hl.
  rewrite <- Hu in Hl. vm_compute in Hl. injection Hl as <-. reflexivity.
Defined.

(** X11. A typed line that, once stripped, begins with [set provider ] in
    any letter case is a provider command: the loop calls [set_provider]
    with the last white-space-free word of the stripped line, in the case
    it was typed in, and goes on with the controller it returns; the line
    is never asked as a question and [split()[-1]] never fails. *)
Theorem X11_provider_command_takes_the_last_word `{Collaborators}
    (depth : nat) (bot : CSEChatbot) (raw : text) (rest : list keyboard) :
  PyStr.startswith "set provider " (lower (PyStr.strip raw)) = true →
  ∃ before sp name,
    PyStr.strip raw = before ++ sp :: name ∧ is_space sp = true
    ∧ name ≠ [] ∧ no_space name = true
    ∧ main_loop depth bot (Typed raw :: rest)
      = match set_provider bot name with
        | (evs, Return bot') =>
            and_then (Prompt "You: " :: map Out evs) (main_loop depth bot' rest)
        | (evs, Raise e) => (Prompt "You: " :: map Out evs, Uncaught e)
        end.
Proof. apply main_loop_provider_command. Qed.

Lemma X11_witness :
  PyStr.startswith "set provider "
    (lower (Unicode := Demo.unicode_tables)
       (PyStr.strip (H := Demo.unicode_tables) "Set Provider  openai")) = true
  ∧ main_loop 3 Demo.bot [Typed "Set Provider  openai"; Typed "hello"; Typed "EXIT"]
    = ([Prompt "You: "; Out (EvPrint "Provider changed to: openai");
        Prompt "You: ";
        Out (EvProcess CourseIdHandler_cls); Out (EvProcess CourseTitleHandler_cls);
        Out (EvProcess SemanticHandler_cls); Out (EvFindRelevantChunks "hello" 3);
        Out (EvPrint ("Bot: [OpenAI] Answer for 'hello' based on: [Chunk(4361), Chunk(2320)]..."
                        ++ newline));
        Prompt "You: "; Out (EvPrint "Goodbye!")], Finished).
Proof.
  split; [reflexivity |].
  destruct (X11_provider_command_takes_the_last_word 3 Demo.bot
              "Set Provider  openai" [Typed "hello"; Typed "EXIT"] eq_refl)
    as (before & sp & name & Hu & Hsp & Hne & Hn & Hloop).
  rewrite Hloop. clear Hloop.
  pose proof (SplitFacts.split_last (H := Demo.unicode_tables)
                before name [] sp Hsp Hne Hn) as Hl.
  rewrite <- Hu in Hl. vm_compute in Hl. injection Hl as <-. reflexivity.
Defined.

(** X12. Lines that are blank once stripped are prompted for and skipped;
    a line that is [exit] in any letter case, with any white space around
    it, ends the loop with [Goodbye!], and nothing typed after it is
    read. *)
Theorem X12_blank_lines_are_skipped_and_exit_ends `{Collaborators}
    (depth : nat) (bot : CSEChatbot) (blanks : list text) (raw : text)
    (rest : list keyboard) :
  Forall (λ line, PyStr.strip line = []) blanks →
  lower (PyStr.strip raw) = txt "exit" →
  main_loop depth bot (map Typed blanks ++ Typed raw :: rest)
  = (replicate (length blanks) (Prompt "You: ")
       ++ [Prompt "You: "; Out (EvPrint "Goodbye!")],
     Finished).
Proof.
  intros Hb He. induction Hb as [|line blanks Hline _ IH].
  - cbn [map app main_loop length replicate]. cbv zeta.
    rewrite He. destruct (PyStr.strip raw) eqn:Hraw.
    + rewrite lower_empty in He. discriminate.
    + reflexivity.
  - cbn [map app main_loop length replicate]. cbv zeta.
    rewrite Hline. cbn [PyStr.truthy negb]. now rewrite IH.
Qed.

Lemma X12_witness :
  Forall (λ line, PyStr.strip (H := Demo.unicode_tables) line = []) [[]; txt "   "]
  ∧ lower (Unicode := Demo.unicode_tables)
      (PyStr.strip (H := Demo.unicode_tables) " Exit ") = txt "exit"
  ∧ main_loop 3 Demo.bot [Typed []; Typed "   "; Typed " Exit "; Typed "hello"]
    = ([Prompt "You: "; Prompt "You: "; Prompt "You: "; Out (EvPrint "Goodbye!")],
       Finished).
Proof.
  assert (Hb : Forall (λ line, PyStr.strip (H := Demo.unicode_tables) line = [])
                 [[]; txt "   "])
    by (repeat constructor).
  split; [exact Hb |]. split; [reflexivity |].
  exact (X12_blank_lines_are_skipped_and_exit_ends 3 Demo.bot _ " Exit "
           [Typed "hello"] Hb eq_refl).
Defined.

Section LoopSafety.
Context `{Collaborators}.
Import PyStr.





End LoopSafety.



(** X14. [main] builds the controller before it prints its banner or
    prompts.  When construction raises (the file cannot be read, a line
    of it is rejected, the store fails), [main] ends with that exception
    after what construction printed, without banner or prompt; when it
    returns, the banner follows what it printed and the loop runs on the
    controller it built.  With the catalog file missing, [main] prints
    the warning and the first progress lines and hands the store an empty
    index: if the store accepts it, the closing line and the banner
    follow and the loop runs on a well-formed controller over the empty
    catalog; if the store raises, [main] ends there. *)
Theorem X14_main_builds_the_controller_first `{Collaborators}
    (depth : nat) (keys : list keyboard) :
  (∀ evs e,
     __init__ "courses.jsonl" = (evs, Raise e) → (∀ what, e ≠ Unmodelled what) →
     main depth keys = (map Out evs, Uncaught e))
  ∧ (∀ evs bot,
       __init__ "courses.jsonl" = (evs, Return bot) →
       main depth keys = and_then (map Out evs ++ banner) (main_loop depth bot keys))
  ∧ (open_lines "courses.jsonl" = Raise FileNotFoundError →
     match store_chunks new_store [] with
     | Return store =>
         main depth keys
         = and_then
             ([Out (EvPrint "Warning: courses.jsonl not found.");
               Out (EvPrint "Initializing RAG components...");
               Out (EvPrint "Indexing courses..."); Out (EvStore 0);
               Out (EvPrint "Indexing complete.")] ++ banner)
             (main_loop depth (init_policies [] store) keys)
         ∧ _courses (init_policies [] store) = []
         ∧ chain_wf (init_policies [] store)
     | Raise e =>
         main depth keys
         = ([Out (EvPrint "Warning: courses.jsonl not found.");
             Out (EvPrint "Initializing RAG components...");
             Out (EvPrint "Indexing courses..."); Out (EvStore 0)],
            Uncaught e)
     end).
Proof.
  split; [| split].
  - intros evs e Hi _. unfold main. now rewrite Hi.
  - intros evs bot Hi. unfold main. now rewrite Hi.
  - intros Ho. unfold main, __init__, _load_courses. rewrite Ho.
    unfold construct, _init_rag_components, _index_courses, print, emit, call, bind, ret.
    cbn [map length].
    destruct (store_chunks new_store []) as [store|e]; [| reflexivity].
    split; [reflexivity |]. split; [reflexivity |].
    split; try reflexivity; eexists; reflexivity.
Qed.

Lemma X14_witness :
  __init__ (H := DemoFile.blank_catalog) "courses.jsonl" = ([], Raise JSONDecodeError)
  ∧ main (H := DemoFile.blank_catalog) 3 [Typed "hello"] = ([], Uncaught JSONDecodeError)
  ∧ open_lines (Collaborators := Demo.collaborators) "courses.jsonl"
    = Raise FileNotFoundError
  ∧ main (H := Demo.collaborators) 3 [Typed "  "; Typed "exit"; Typed "hello"]
    = ([Out (EvPrint "Warning: courses.jsonl not found.");
        Out (EvPrint "Initializing RAG components...");
        Out (EvPrint "Indexing courses..."); Out (EvStore 0);
        Out (EvPrint "Indexing complete.");
        Out (EvPrint (newline ++ "CSE Course Chatbot"));
        Out (EvPrint "Commands: 'exit', 'set strategy <name>', 'set provider <name>'");
        Out (EvPrint "----------------------------------------");
        Prompt "You: "; Prompt "You: "; Out (EvPrint "Goodbye!")],
       Finished).
Proof.
  split; [reflexivity |].
  split; [exact (proj1 (X14_main_builds_the_controller_first
                          (H := DemoFile.blank_catalog) 3 [Typed "hello"])
                   [] JSONDecodeError eq_refl
                   (λ what (Heq : JSONDecodeError = Unmodelled what),
                      eq_ind JSONDecodeError
                        (λ e, match e with JSONDecodeError => True | _ => False end)
                        I _ Heq)) |].
  split; [reflexivity |].
  exact (proj1 (proj2 (proj2 (X14_main_builds_the_controller_first
                                (H := Demo.collaborators) 3
                                [Typed "  "; Typed "exit"; Typed "hello"]))
                 eq_refl)).
Defined.
